(** * Ownership-scoped todo CRUD and its authentication gates

    A shallow embedding of the todo backend: the Mongoose models
    ([models/todo.js], [models/user.js]), the API controller
    ([controllers/todoController.js]), the bearer-token middleware
    ([middleware/auth.js]), the router ([routes/todoRoutes.js]) and the
    cookie middleware and HTML-form handlers of [app.js].

    Conventions of the embedding.
    - An [ObjectId] is the 96-bit number the driver stores, kept as [N].
      Which strings cast to an ObjectId is the store library's business and
      differs between its versions, so the cast is a parameter
      [castObjectId : string -> option ObjectId].
    - [jwt.verify] (with the configured secret, at the instant of the
      request) is a parameter [jwt_verify]; the code only looks at the
      decoded payload or at the [name] of the error it throws.
    - A collection is a finite map from [_id] to document.  New documents
      draw their [_id] from a counter kept beside the collection: the only
      property of generated identifiers that is used is that they are never
      issued twice.
    - A request body is read at the type the API documents:
      [{title?: string, description?: string, completed?: boolean}]; a key
      that is absent (JavaScript [undefined]) is [None].
    - [async]/[await] is sequential code here: every handler runs to
      completion on the store it is given and returns the new store.
    - [try]/[catch] is an error monad: a throwing step is [Throw name]. *)

From stdpp Require Import gmap strings list sorting.
From Stdlib Require Import ZArith.

Local Open Scope string_scope.

Abbreviation ObjectId := N (only parsing).

(** ** Errors *)

(** The [name] of a thrown error, as the [catch] blocks inspect it. *)
Inductive ErrorName :=
  | CastError
  | ValidationError
  | JsonWebTokenError
  | TokenExpiredError
  | NotBeforeError.

#[global] Instance ErrorName_eq_dec : EqDecision ErrorName.
Proof. solve_decision. Defined.

Inductive Result (A : Type) :=
  | Ok (a : A)
  | Throw (e : ErrorName).
Arguments Ok {A} a.
Arguments Throw {A} e.

(** ** models/user.js *)

Module User.
Record t := mk {
  _id : ObjectId;
  username : string;
  password : option string
}.

(** [.select('-password')] *)
Definition select_minus_password (u : t) : t :=
  {| _id := _id u; username := username u; password := None |}.
End User.

(** ** models/todo.js *)

Module Todo.
Record t := mk {
  _id : ObjectId;
  title : string;
  description : string;
  read : bool;
  completed : bool;
  user : ObjectId;
  createdAt : Z;
  updatedAt : Z
}.

#[global] Instance eq_dec : EqDecision t.
Proof. solve_decision. Defined.

(** Schema validation run by [save()].  [title] is [required: true]; on a
    String path the required validator rejects the empty string as well as
    a missing value.  [user] is required too and is always present at this
    type. *)
Definition validate (d : t) : Result unit :=
  if decide (title d = "") then Throw ValidationError else Ok tt.

Definition set_title (v : string) (d : t) : t :=
  mk (_id d) v (description d) (read d) (completed d) (user d)
     (createdAt d) (updatedAt d).
Definition set_description (v : string) (d : t) : t :=
  mk (_id d) (title d) v (read d) (completed d) (user d)
     (createdAt d) (updatedAt d).
Definition set_completed (v : bool) (d : t) : t :=
  mk (_id d) (title d) (description d) (read d) v (user d)
     (createdAt d) (updatedAt d).
Definition set_read (v : bool) (d : t) : t :=
  mk (_id d) (title d) (description d) v (completed d) (user d)
     (createdAt d) (updatedAt d).
Definition set_timestamps (c u : Z) (d : t) : t :=
  mk (_id d) (title d) (description d) (read d) (completed d) (user d) c u.
End Todo.

(** The todo collection with the identifier counter. *)
Record Store := mkStore {
  todos : gmap N Todo.t;
  nextId : ObjectId
}.

(** ** Store actions

    A step of a handler reads or writes the collection and may throw; a
    throw keeps the collection as it was at that point. *)

Definition M (A : Type) : Type := Store -> Result A * Store.

Definition ret {A} (a : A) : M A := fun s => (Ok a, s).

Definition throw {A} (e : ErrorName) : M A := fun s => (Throw e, s).

Definition lift {A} (r : Result A) : M A := fun s => (r, s).

Definition bind {A B} (m : M A) (k : A -> M B) : M B :=
  fun s =>
    match m s with
    | (Ok a, s') => k a s'
    | (Throw e, s') => (Throw e, s')
    end.

Notation "'await' x <- m ; k" := (bind m (fun x => k))
  (at level 10, x name, m at level 100, k at level 200).

(** ** HTTP requests and responses *)

Module Body.
Record t := mk {
  title : option string;
  description : option string;
  completed : option bool
}.
End Body.

(** The decoded token payload, [{ id, username }]. *)
Module Payload.
Record t := mk {
  id : string;
  username : string
}.
End Payload.

Record Req := mkReq {
  headers_authorization : option string;
  cookies_token : option string;
  params_id : string;
  body : Body.t
}.

Inductive Json :=
  | JError (error : string)          (* { error: ... } *)
  | JMessage (message : string)      (* { message: ... } *)
  | JSuccess                         (* { success: true } *)
  | JTodo (todo : Todo.t)
  | JTodos (l : list Todo.t).

(** The Express response object: the status code ([200] until set), what
    was sent, and whether [clearCookie('token')] was called on it. *)
Record Res := mkRes {
  statusCode : nat;
  sent : option Json;
  clearedCookie : bool
}.

Definition res0 : Res := mkRes 200 None false.

Definition status (n : nat) (res : Res) : Res :=
  mkRes n (sent res) (clearedCookie res).
Definition json (b : Json) (res : Res) : Res :=
  mkRes (statusCode res) (Some b) (clearedCookie res).
Definition clearCookie (res : Res) : Res :=
  mkRes (statusCode res) (sent res) true.

(** A value given where the schema wants an ObjectId: a string (a route
    parameter, the [id] of a token payload) or an ObjectId already. *)
Inductive IdValue :=
  | IdStr (s : string)
  | IdObj (o : ObjectId).

(** The separator of [authHeader.split(' ')]. *)
Definition space : Ascii.ascii := Ascii.Ascii false false false false false true false false.

(** [s.split(sep)] *)
Fixpoint split (sep : Ascii.ascii) (s : string) : list string :=
  match s with
  | EmptyString => [""]
  | String c s' =>
      if Ascii.eqb c sep then "" :: split sep s'
      else match split sep s' with
           | w :: ws => String c w :: ws
           | [] => [String c ""]
           end
  end.

(** JavaScript truthiness of an optional string: [undefined] and [''] are
    falsy. *)
Definition truthy (v : option string) : bool :=
  match v with
  | Some s => negb (String.eqb s "")
  | None => false
  end.

(** [try { body } catch (error) { handler }] around a handler body: the
    response is the body's or the one the [catch] block builds. *)
Definition try_catch (m : M Res) (h : ErrorName -> Res) (s : Store)
  : Res * Store :=
  match m s with
  | (Ok r, s') => (r, s')
  | (Throw e, s') => (h e, s')
  end.

(** A route handler once [req.user] is known: [U] is what the middleware
    in front of it put there. *)
Definition Handler (U : Type) : Type :=
  U -> Req -> Res -> Z -> Store -> Res * Store.

Inductive ApiRoute :=
  | GET_api_todos
  | POST_api_todos
  | PUT_api_todos_id
  | DELETE_api_todos_id
  | PATCH_api_todos_id_read.

Inductive WebRoute :=
  | POST_todos
  | PUT_todos_id
  | DELETE_todos_id
  | PATCH_todos_id_read.

Inductive Route :=
  | Api (r : ApiRoute)
  | Web (r : WebRoute).

Section Backend.

Variable castObjectId : string -> option ObjectId.
Variable jwt_verify : string -> Result Payload.t.
Variable users : gmap N User.t.

(** *** Mongoose queries *)

(** Casting a query or document value to ObjectId. *)
Definition cast (v : IdValue) : Result ObjectId :=
  match v with
  | IdObj o => Ok o
  | IdStr s =>
      match castObjectId s with
      | Some o => Ok o
      | None => Throw CastError
      end
  end.

(** [User.findById(id).select('-password')] *)
Definition User_findById (id : IdValue) : Result (option User.t) :=
  match cast id with
  | Ok o => Ok (User.select_minus_password <$> users !! o)
  | Throw e => Throw e
  end.

Definition newer_first (a b : Todo.t) : Prop :=
  (Todo.createdAt b <= Todo.createdAt a)%Z.

#[local] Instance newer_first_dec a b : Decision (newer_first a b).
Proof. unfold newer_first. apply _. Defined.

(** [Todo.find({ user }).sort({ createdAt: -1 })]; among documents created
    at the same instant the order is whatever the sort leaves. *)
Definition Todo_find_sorted (owner : IdValue) : M (list Todo.t) :=
  await o <- lift (cast owner);
  fun s =>
    (Ok (merge_sort newer_first
           (filter (fun d => Todo.user d = o)
                   (snd <$> map_to_list (todos s)))), s).

(** The document selected by the filter [{ _id: i, user: o }]. *)
Definition matching (i o : ObjectId) (s : Store) : option Todo.t :=
  match todos s !! i with
  | Some d => if decide (Todo.user d = o) then Some d else None
  | None => None
  end.

(** [Todo.findOne({ _id, user })] *)
Definition Todo_findOne (id owner : IdValue) : M (option Todo.t) :=
  await i <- lift (cast id);
  await o <- lift (cast owner);
  fun s => (Ok (matching i o s), s).

(** [Todo.findOneAndDelete({ _id, user })] *)
Definition Todo_findOneAndDelete (id owner : IdValue) : M (option Todo.t) :=
  await i <- lift (cast id);
  await o <- lift (cast owner);
  fun s =>
    match matching i o s with
    | Some d => (Ok (Some d), mkStore (delete i (todos s)) (nextId s))
    | None => (Ok None, s)
    end.

(** [new Todo({...})]: the document gets its [_id] when it is built.  A
    [user] value that does not cast is reported as a validation error when
    the document is saved; the identifier is spent all the same. *)
Definition Todo_new (title description : string) (owner : IdValue)
    (read completed : bool) : M Todo.t :=
  fun s =>
    match cast owner with
    | Ok o =>
        (Ok (Todo.mk (nextId s) title description read completed o 0 0),
         mkStore (todos s) (N.succ (nextId s)))
    | Throw _ =>
        (Throw ValidationError, mkStore (todos s) (N.succ (nextId s)))
    end.

(** [doc.save()]: validate, then insert a new document or write back a
    changed one; [timestamps: true] stamps [createdAt] on insert and
    [updatedAt] on every write.  An unchanged document is not written. *)
Definition save (d : Todo.t) (now : Z) : M Todo.t :=
  await _ <- lift (Todo.validate d);
  fun s =>
    match todos s !! Todo._id d with
    | None =>
        let d' := Todo.set_timestamps now now d in
        (Ok d', mkStore (<[Todo._id d := d']> (todos s)) (nextId s))
    | Some old =>
        if decide (old = d) then (Ok d, s)
        else
          let d' := Todo.set_timestamps (Todo.createdAt d) now d in
          (Ok d', mkStore (<[Todo._id d := d']> (todos s)) (nextId s))
    end.

(** *** controllers/todoController.js *)

Definition server_error (res : Res) : ErrorName -> Res :=
  fun _ => json (JError "Server error") (status 500 res).

(** The [catch] block of [updateTodo], [deleteTodo] and [markAsRead]. *)
Definition cast_or_server_error (res : Res) : ErrorName -> Res :=
  fun error =>
    if decide (error = CastError)
    then json (JError "Invalid todo ID") (status 400 res)
    else json (JError "Server error") (status 500 res).

Definition getTodos : Handler Payload.t := fun user req res now =>
  try_catch
    (await todos <- Todo_find_sorted (IdStr (Payload.id user));
     ret (json (JTodos todos) res))
    (server_error res).

Definition createTodo : Handler Payload.t := fun user req res now =>
  try_catch
    (match Body.title (body req) with
     | None | Some EmptyString =>
         ret (json (JError "Title is required") (status 400 res))
     | Some title =>
         await todo <- Todo_new title
                         (default "" (Body.description (body req)))
                         (IdStr (Payload.id user)) false false;
         await todo <- save todo now;
         ret (json (JTodo todo) (status 201 res))
     end)
    (server_error res).

(** The three [if (x !== undefined) todo.x = x] assignments. *)
Definition assign_fields (b : Body.t) (todo : Todo.t) : Todo.t :=
  let todo := from_option (fun v => Todo.set_title v todo) todo
                          (Body.title b) in
  let todo := from_option (fun v => Todo.set_description v todo) todo
                          (Body.description b) in
  from_option (fun v => Todo.set_completed v todo) todo (Body.completed b).

Definition updateTodo : Handler Payload.t := fun user req res now =>
  try_catch
    (await todo <- Todo_findOne (IdStr (params_id req))
                                (IdStr (Payload.id user));
     match todo with
     | None => ret (json (JError "Todo not found") (status 404 res))
     | Some todo =>
         await todo <- save (assign_fields (body req) todo) now;
         ret (json (JTodo todo) res)
     end)
    (cast_or_server_error res).

Definition deleteTodo : Handler Payload.t := fun user req res now =>
  try_catch
    (await result <- Todo_findOneAndDelete (IdStr (params_id req))
                                           (IdStr (Payload.id user));
     match result with
     | None => ret (json (JError "Todo not found") (status 404 res))
     | Some _ => ret (json (JMessage "Todo deleted successfully") res)
     end)
    (cast_or_server_error res).

Definition markAsRead : Handler Payload.t := fun user req res now =>
  try_catch
    (await todo <- Todo_findOne (IdStr (params_id req))
                                (IdStr (Payload.id user));
     match todo with
     | None => ret (json (JError "Todo not found") (status 404 res))
     | Some todo =>
         await todo <- save (Todo.set_read true todo) now;
         ret (json (JTodo todo) res)
     end)
    (cast_or_server_error res).

(** *** middleware/auth.js *)

(** [authHeader && authHeader.split(' ')[1]] *)
Definition header_token (authHeader : option string) : option string :=
  match authHeader with
  | None => None
  | Some EmptyString => Some ""
  | Some h => split space h !! 1%nat
  end.

(** The [catch] block of the middleware. *)
Definition auth_error (res : Res) (error : ErrorName) : Res :=
  if decide (error = JsonWebTokenError)
  then json (JError "Invalid token") (status 401 res)
  else if decide (error = TokenExpiredError)
  then json (JError "Token expired") (status 401 res)
  else json (JError "Server error") (status 500 res).

Definition auth (next : Handler Payload.t) (req : Req) (res : Res)
    (now : Z) (s : Store) : Res * Store :=
  match header_token (headers_authorization req) with
  | None | Some EmptyString =>
      (json (JError "No token provided, authorization denied")
            (status 401 res), s)
  | Some token =>
      match jwt_verify token with
      | Throw e => (auth_error res e, s)
      | Ok decoded =>
          match User_findById (IdStr (Payload.id decoded)) with
          | Throw e => (auth_error res e, s)
          | Ok None => (json (JError "User not found") (status 401 res), s)
          | Ok (Some _) => next decoded req res now s
          end
      end
  end.

(** *** routes/todoRoutes.js *)

Definition controller (r : ApiRoute) : Handler Payload.t :=
  match r with
  | GET_api_todos => getTodos
  | POST_api_todos => createTodo
  | PUT_api_todos_id => updateTodo
  | DELETE_api_todos_id => deleteTodo
  | PATCH_api_todos_id_read => markAsRead
  end.

Definition router (r : ApiRoute) : Req -> Res -> Z -> Store -> Res * Store :=
  auth (controller r).

(** *** app.js *)

(** The cookie middleware: what it leaves in [req.user] and the response
    object it passes on. It always calls [next()]. *)
Definition cookie_jwt (req : Req) (res : Res) : option User.t * Res :=
  match cookies_token req with
  | None | Some EmptyString => (None, res)
  | Some token =>
      match jwt_verify token with
      | Throw _ => (None, clearCookie res)
      | Ok decoded =>
          match User_findById (IdStr (Payload.id decoded)) with
          | Throw _ => (None, clearCookie res)
          | Ok user => (user, res)
          end
      end
  end.

Definition unauthorized (res : Res) : Res :=
  json (JError "Unauthorized") (status 401 res).

(** [app.post('/todos', ...)] *)
Definition post_todos : Handler (option User.t) := fun user req res now =>
  try_catch
    (match user with
     | None => ret (unauthorized res)
     | Some u =>
         match Body.title (body req) with
         | None | Some EmptyString =>
             ret (json (JError "Title is required") (status 400 res))
         | Some title =>
             await todo <- Todo_new title
                             (default "" (Body.description (body req)))
                             (IdObj (User._id u)) false false;
             await todo <- save todo now;
             ret (json (JTodo todo) (status 201 res))
         end
     end)
    (server_error res).

(** [app.put('/todos/:id', ...)] *)
Definition put_todos_id : Handler (option User.t) := fun user req res now =>
  try_catch
    (match user with
     | None => ret (unauthorized res)
     | Some u =>
         await todo <- Todo_findOne (IdStr (params_id req))
                                    (IdObj (User._id u));
         match todo with
         | None => ret (json (JError "Todo not found") (status 404 res))
         | Some todo =>
             await _ <- save (assign_fields (body req) todo) now;
             ret (json JSuccess res)
         end
     end)
    (server_error res).

(** [app.delete('/todos/:id', ...)] *)
Definition delete_todos_id : Handler (option User.t) :=
  fun user req res now =>
  try_catch
    (match user with
     | None => ret (unauthorized res)
     | Some u =>
         await result <- Todo_findOneAndDelete (IdStr (params_id req))
                                               (IdObj (User._id u));
         match result with
         | None => ret (json (JError "Todo not found") (status 404 res))
         | Some _ => ret (json JSuccess res)
         end
     end)
    (server_error res).

(** [app.patch('/todos/:id/read', ...)] *)
Definition patch_todos_id_read : Handler (option User.t) :=
  fun user req res now =>
  try_catch
    (match user with
     | None => ret (unauthorized res)
     | Some u =>
         await todo <- Todo_findOne (IdStr (params_id req))
                                    (IdObj (User._id u));
         match todo with
         | None => ret (json (JError "Todo not found") (status 404 res))
         | Some todo =>
             await _ <- save (Todo.set_read true todo) now;
             ret (json JSuccess res)
         end
     end)
    (server_error res).

Definition web_handler (r : WebRoute) : Handler (option User.t) :=
  match r with
  | POST_todos => post_todos
  | PUT_todos_id => put_todos_id
  | DELETE_todos_id => delete_todos_id
  | PATCH_todos_id_read => patch_todos_id_read
  end.

(** One request through the application: the cookie middleware first,
    then the router under [/api/todos] or the form handler. *)
Definition app (route : Route) (req : Req) (now : Z) (s : Store)
  : Res * Store :=
  let '(user, res) := cookie_jwt req res0 in
  match route with
  | Api r => router r req res now s
  | Web r => web_handler r user req res now s
  end.

End Backend.

(** ** Notions used to state the properties *)

Section Notions.

Variable castObjectId : string -> option ObjectId.
Variable jwt_verify : string -> Result Payload.t.
Variable users : gmap N User.t.

(** The identity the bearer-token middleware lets through: the decoded
    payload and the ObjectId its [id] casts to, when the header carries a
    token that verifies and names a stored user. *)
Definition identity_of (req : Req) : option (Payload.t * ObjectId) :=
  match header_token (headers_authorization req) with
  | None | Some EmptyString => None
  | Some token =>
      match jwt_verify token with
      | Throw _ => None
      | Ok decoded =>
          match castObjectId (Payload.id decoded) with
          | None => None
          | Some o =>
              match users !! o with
              | Some _ => Some (decoded, o)
              | None => None
              end
          end
      end
  end.

(** The four ways the bearer-token gate refuses a request, in the words of
    the specification. *)
Inductive AuthFailure :=
  | NoCredential
  | InvalidCredential
  | ExpiredCredential
  | UnknownPrincipal.

(** Which of them, if any, applies to a request. *)
Definition auth_failure (req : Req) : option AuthFailure :=
  match header_token (headers_authorization req) with
  | None | Some EmptyString => Some NoCredential
  | Some token =>
      match jwt_verify token with
      | Throw JsonWebTokenError => Some InvalidCredential
      | Throw TokenExpiredError => Some ExpiredCredential
      | Throw _ => None
      | Ok decoded =>
          match User_findById castObjectId users
                  (IdStr (Payload.id decoded)) with
          | Ok None => Some UnknownPrincipal
          | _ => None
          end
      end
  end.

(** The reason string sent with the [401]. *)
Definition failure_message (f : AuthFailure) : string :=
  match f with
  | NoCredential => "No token provided, authorization denied"
  | InvalidCredential => "Invalid token"
  | ExpiredCredential => "Token expired"
  | UnknownPrincipal => "User not found"
  end.

(** The routes that address one todo by [:id]. *)
Definition by_id (r : ApiRoute) : bool :=
  match r with
  | PUT_api_todos_id | DELETE_api_todos_id | PATCH_api_todos_id_read => true
  | GET_api_todos | POST_api_todos => false
  end.

Definition web_by_id (r : WebRoute) : bool :=
  match r with
  | PUT_todos_id | DELETE_todos_id | PATCH_todos_id_read => true
  | POST_todos => false
  end.

(** The response object as the cookie middleware hands it on. *)
Definition entry_res (req : Req) : Res :=
  snd (cookie_jwt castObjectId jwt_verify users req res0).

(** The same request with another [:id]. *)
Definition with_id (id : string) (req : Req) : Req :=
  mkReq (headers_authorization req) (cookies_token req) id (body req).

(** A later history of the server: requests with their arrival times. *)
Fixpoint run (trace : list (Route * Req * Z)) (s : Store) : Store :=
  match trace with
  | [] => s
  | (route, req, now) :: rest =>
      run rest (snd (app castObjectId jwt_verify users route req now s))
  end.

End Notions.

(** What the store guarantees about a collection: a document sits under
    its own [_id], identifiers in use were issued by the counter, and every
    stored document passed validation. *)
Definition stored_ok (next : ObjectId) (k : N) (d : Todo.t) : Prop :=
  Todo._id d = k /\ (k < next)%N /\ Todo.title d <> "".

Definition wf (s : Store) : Prop :=
  map_Forall (stored_ok (nextId s)) (todos s).

(** How one request may change a well-formed collection: it stays
    well-formed, the counter does not go back, and an identifier that was
    issued and is no longer in use stays out of use. *)
Definition evolves (s s' : Store) : Prop :=
  wf s'
  /\ (nextId s <= nextId s')%N
  /\ forall k : N, (k < nextId s)%N -> todos s !! k = None -> todos s' !! k = None.

(** ** app.js: the pages, login, registration and logout

    These handlers render templates, redirect, flash messages into the
    session and set the token cookie; the response object of the todo
    routes is extended with what they add.  Three things they call live
    outside the files at hand and are parameters: [user.comparePassword]
    and the creation of a user ([new User({...}).save()]) of the user
    model, and [jwt.sign] with the configured secret and lifetime.  The
    login and registration forms post [username] and [password], read here
    as strings.  The middleware that copies [req.user] and the pending
    flash messages into [res.locals] feeds the templates only and is not
    part of the model. *)

Module Credentials.
Record t := mk {
  username : string;
  password : string
}.
End Credentials.

(** [req.flash('error', ...)] and [req.flash('success', ...)] *)
Inductive FlashKind :=
  | FlashError
  | FlashSuccess.

Inductive View :=
  | ViewIndex (todos : list Todo.t)    (* render('index', { todos }) *)
  | ViewLogin                          (* render('login') *)
  | ViewRegister                       (* render('register') *)
  | View404                            (* render('404') *)
  | View500.                           (* render('500', { error }) *)

Inductive PageSent :=
  | Redirect (path : string)
  | Render (view : View).

Record Page := mkPage {
  page_res : Res;
  page_sent : option PageSent;
  page_flash : list (FlashKind * string);
  page_cookie : option string
}.

Definition page0 (res : Res) : Page := mkPage res None [] None.

(** [res.redirect(path)]: status 302 and the location. *)
Definition redirect (path : string) (p : Page) : Page :=
  mkPage (status 302 (page_res p)) (Some (Redirect path))
         (page_flash p) (page_cookie p).

Definition render (v : View) (p : Page) : Page :=
  mkPage (page_res p) (Some (Render v)) (page_flash p) (page_cookie p).

Definition page_status (n : nat) (p : Page) : Page :=
  mkPage (status n (page_res p)) (page_sent p) (page_flash p) (page_cookie p).

Definition flash (k : FlashKind) (msg : string) (p : Page) : Page :=
  mkPage (page_res p) (page_sent p) (page_flash p ++ [(k, msg)])
         (page_cookie p).

(** [res.cookie('token', token, { httpOnly: true, maxAge: ... })] *)
Definition set_cookie (token : string) (p : Page) : Page :=
  mkPage (page_res p) (page_sent p) (page_flash p) (Some token).

(** [res.clearCookie('token')] *)
Definition page_clearCookie (p : Page) : Page :=
  mkPage (clearCookie (page_res p)) (page_sent p) (page_flash p)
         (page_cookie p).

(** [User.findOne({ username })]; were several users to have the name,
    which of them is found is left open. *)
Definition User_findOne (name : string) (us : gmap N User.t)
  : option User.t :=
  head (filter (fun u => User.username u = name) (snd <$> map_to_list us)).

Inductive PageRoute :=
  | GET_index
  | GET_login
  | GET_register
  | POST_login
  | POST_register
  | GET_logout
  | Unmatched.

Section Pages.

Variable castObjectId : string -> option ObjectId.
Variable jwt_verify : string -> Result Payload.t.
Variable jwt_sign : ObjectId -> string -> string.
Variable comparePassword : User.t -> string -> Result bool.
Variable User_create :
  string -> string -> gmap N User.t -> Result (gmap N User.t).

(** [app.get('/', ...)] *)
Definition get_index (user : option User.t) (res : Res) (s : Store) : Page :=
  match user with
  | Some u =>
      match Todo_find_sorted castObjectId (IdObj (User._id u)) s with
      | (Ok todos, _) => render (ViewIndex todos) (page0 res)
      | (Throw _, _) =>
          render View500
            (page_status 500
               (flash FlashError "An unexpected error occurred" (page0 res)))
      end
  | None => redirect "/login" (page0 res)
  end.

(** [app.get('/login', ...)] *)
Definition get_login (user : option User.t) (res : Res) : Page :=
  match user with
  | Some _ => redirect "/" (page0 res)
  | None => render ViewLogin (page0 res)
  end.

(** [app.get('/register', ...)] *)
Definition get_register (user : option User.t) (res : Res) : Page :=
  match user with
  | Some _ => redirect "/" (page0 res)
  | None => render ViewRegister (page0 res)
  end.

(** [app.post('/login', ...)] *)
Definition post_login (form : Credentials.t) (res : Res)
    (us : gmap N User.t) : Page :=
  match User_findOne (Credentials.username form) us with
  | None =>
      redirect "/login" (flash FlashError "Invalid credentials" (page0 res))
  | Some user =>
      match comparePassword user (Credentials.password form) with
      | Throw _ =>
          redirect "/login"
            (flash FlashError "An unexpected error occurred" (page0 res))
      | Ok false =>
          redirect "/login"
            (flash FlashError "Invalid credentials" (page0 res))
      | Ok true =>
          let token := jwt_sign (User._id user) (User.username user) in
          redirect "/"
            (flash FlashSuccess "Logged in successfully"
               (set_cookie token (page0 res)))
      end
  end.

(** [app.post('/register', ...)] *)
Definition post_register (form : Credentials.t) (res : Res)
    (us : gmap N User.t) : Page * gmap N User.t :=
  match User_findOne (Credentials.username form) us with
  | Some _ =>
      (redirect "/register"
         (flash FlashError "Username already exists" (page0 res)), us)
  | None =>
      match User_create (Credentials.username form)
                        (Credentials.password form) us with
      | Ok us' =>
          (redirect "/login"
             (flash FlashSuccess "Registration successful! Please log in."
                (page0 res)), us')
      | Throw _ =>
          (redirect "/register"
             (flash FlashError "An unexpected error occurred" (page0 res)),
           us)
      end
  end.

(** [app.get('/logout', ...)] *)
Definition get_logout (res : Res) : Page :=
  redirect "/login"
    (flash FlashSuccess "Logged out successfully"
       (page_clearCookie (page0 res))).

(** The 404 handler, for a path no route matches. *)
Definition not_found (res : Res) : Page :=
  render View404 (page_status 404 (page0 res)).

(** One page request through the application: the cookie middleware, then
    the route. *)
Definition pages (route : PageRoute) (req : Req) (form : Credentials.t)
    (s : Store) (us : gmap N User.t) : Page * gmap N User.t :=
  let '(user, res) := cookie_jwt castObjectId jwt_verify us req res0 in
  match route with
  | GET_index => (get_index user res s, us)
  | GET_login => (get_login user res, us)
  | GET_register => (get_register user res, us)
  | POST_login => (post_login form res us, us)
  | POST_register => post_register form res us
  | GET_logout => (get_logout res, us)
  | Unmatched => (not_found res, us)
  end.

End Pages.

(** ** Further notions *)

(** The caller's records as the collection holds them, in no order. *)
Definition owned_by (owner : ObjectId) (s : Store) : list Todo.t :=
  filter (fun d => Todo.user d = owner) (snd <$> map_to_list (todos s)).

(** A request by [owner] took the collection from [s] to [s']: wherever the
    two differ, the record before and the record after belong to
    [owner]. *)
Definition own_only (owner : ObjectId) (s s' : Store) : Prop :=
  forall k : N,
    todos s' !! k = todos s !! k
    \/ ((forall d, todos s !! k = Some d -> Todo.user d = owner)
        /\ (forall d, todos s' !! k = Some d -> Todo.user d = owner)).

(** No space in a string. *)
Fixpoint no_space (s : string) : bool :=
  match s with
  | EmptyString => true
  | String c s' => negb (Ascii.eqb c space) && no_space s'
  end.

(** The API route that does what a form route does. *)
Definition api_of (r : WebRoute) : ApiRoute :=
  match r with
  | POST_todos => POST_api_todos
  | PUT_todos_id => PUT_api_todos_id
  | DELETE_todos_id => DELETE_api_todos_id
  | PATCH_todos_id_read => PATCH_api_todos_id_read
  end.

(** A response body that shows no record but the caller's. *)
Definition own_body (owner : ObjectId) (b : Json) : Prop :=
  match b with
  | JTodo d => Todo.user d = owner
  | JTodos l => Forall (fun d => Todo.user d = owner) l
  | JError _ | JMessage _ | JSuccess => True
  end.

(** ** A concrete instance, for examples *)

Definition hex_digit (c : Ascii.ascii) : option N :=
  let n := Ascii.N_of_ascii c in
  if ((48 <=? n) && (n <=? 57))%N then Some (n - 48)%N
  else if ((97 <=? n) && (n <=? 102))%N then Some (n - 87)%N
  else if ((65 <=? n) && (n <=? 70))%N then Some (n - 55)%N
  else None.

Fixpoint hex_value (acc : N) (s : string) : option N :=
  match s with
  | EmptyString => Some acc
  | String c s' =>
      match hex_digit c with
      | Some d => hex_value (16 * acc + d)%N s'
      | None => None
      end
  end.

(** The cast of the store library's recent versions: exactly the strings of
    24 hexadecimal digits. *)
Definition hex24 (s : string) : option ObjectId :=
  if (String.length s =? 24)%nat then hex_value 0%N s else None.

Definition alice_id : string := "0000000000000000000000a1".
Definition bob_id : string := "0000000000000000000000b2".
Definition ghost_id : string := "0000000000000000000000c3".

Definition alice : Payload.t := Payload.mk alice_id "alice".
Definition bob : Payload.t := Payload.mk bob_id "bob".

Definition sample_users : gmap N User.t :=
  <[161%N := User.mk 161 "alice" (Some "$2a$10$hash-a")]>
  (<[178%N := User.mk 178 "bob" (Some "$2a$10$hash-b")]> ∅).

(** A stand-in for [jwt.verify]: five tokens with the outcomes the
    middleware distinguishes, every other string malformed. *)
Definition sample_verify (token : string) : Result Payload.t :=
  if String.eqb token "tok-alice" then Ok (Payload.mk alice_id "alice")
  else if String.eqb token "tok-bob" then Ok (Payload.mk bob_id "bob")
  else if String.eqb token "tok-ghost" then Ok (Payload.mk ghost_id "ghost")
  else if String.eqb token "tok-odd-id" then Ok (Payload.mk "xyz" "odd")
  else if String.eqb token "tok-expired" then Throw TokenExpiredError
  else Throw JsonWebTokenError.

Definition milk : Todo.t :=
  Todo.mk 1 "Buy milk" "" false false 161 10 10.

Definition sample_store : Store :=
  mkStore (<[1%N := milk]> ∅) 2.

Definition bearer (token : string) (id : string) (b : Body.t) : Req :=
  mkReq (Some ("Bearer " ++ token)) None id b.

Definition with_cookie (token : string) (id : string) (b : Body.t) : Req :=
  mkReq None (Some token) id b.

Definition no_body : Body.t := Body.mk None None None.

Definition sample_app := app hex24 sample_verify sample_users.

(** Stand-ins for [jwt.sign], [comparePassword] and user creation. *)
Definition sample_sign (o : ObjectId) (name : string) : string :=
  "tok-" ++ name.

Definition sample_compare (u : User.t) (candidate : string)
  : Result bool :=
  Ok (bool_decide (User.password u = Some ("$2a$10$" ++ candidate))).

Definition sample_create (name pw : string) (us : gmap N User.t)
  : Result (gmap N User.t) :=
  Ok (<[200%N := User.mk 200 name (Some ("$2a$10$" ++ pw))]> us).

Definition sample_pages :=
  pages hex24 sample_verify sample_sign sample_compare sample_create.

Definition milk_id : string := "000000000000000000000001".


(** ** Properties *)

Section Properties.

Variable castObjectId : string -> option ObjectId.
Variable jwt_verify : string -> Result Payload.t.
Variable users : gmap N User.t.

#[local] Abbreviation app' := (app castObjectId jwt_verify users).
#[local] Abbreviation auth' := (auth castObjectId jwt_verify users).
#[local] Abbreviation identity := (identity_of castObjectId jwt_verify users).
#[local] Abbreviation entry := (entry_res castObjectId jwt_verify users).
#[local] Abbreviation cookie := (cookie_jwt castObjectId jwt_verify users).

(** *** The bearer-token gate lets an identified request through *)

Lemma identity_cast req decoded owner :
  identity req = Some (decoded, owner) ->
  castObjectId (Payload.id decoded) = Some owner.
Proof.
  unfold identity_of.
  destruct (header_token _) as [[|c t]|]; try discriminate.
  destruct (jwt_verify _) as [d|]; try discriminate.
  destruct (castObjectId (Payload.id d)) as [o|] eqn:Hc; try discriminate.
  destruct (users !! o); try discriminate.
  intros [= <- <-]. exact Hc.
Qed.

Lemma identity_auth req decoded owner next res now s :
  identity req = Some (decoded, owner) ->
  auth' next req res now s = next decoded req res now s.
Proof.
  unfold identity_of, auth.
  destruct (header_token _) as [[|c t]|]; try discriminate.
  destruct (jwt_verify _) as [d|]; try discriminate.
  unfold User_findById, cast.
  destruct (castObjectId (Payload.id d)) as [o|]; try discriminate.
  destruct (users !! o); try discriminate.
  intros [= <- <-]. reflexivity.
Qed.

Lemma app_api r req now s :
  app' (Api r) req now s =
  auth' (controller castObjectId r) req (entry req) now s.
Proof.
  unfold app, entry_res, router.
  destruct (cookie_jwt _ _ _ _ _). reflexivity.
Qed.

Lemma app_web r req now s :
  app' (Web r) req now s =
  web_handler castObjectId r (fst (cookie req res0)) req (entry req) now s.
Proof.
  unfold app, entry_res.
  destruct (cookie_jwt _ _ _ _ _). reflexivity.
Qed.

Lemma app_identified r req decoded owner now s :
  identity req = Some (decoded, owner) ->
  app' (Api r) req now s =
  controller castObjectId r decoded req (entry req) now s.
Proof. intros H. rewrite app_api. eapply identity_auth, H. Qed.

Lemma identity_with_id id req : identity (with_id id req) = identity req.
Proof. reflexivity. Qed.

Lemma entry_with_id id req : entry (with_id id req) = entry req.
Proof. reflexivity. Qed.

(** *** The owner-scoped lookup *)

Lemma matching_Some i o s d :
  matching i o s = Some d <-> todos s !! i = Some d /\ Todo.user d = o.
Proof.
  unfold matching. destruct (todos s !! i) as [d'|].
  - destruct (decide (Todo.user d' = o)) as [Hu|Hu]; split.
    + intros [= <-]. auto.
    + intros [[= <-] _]. reflexivity.
    + discriminate.
    + intros [[= <-] Ho]. contradiction.
  - split; [discriminate | intros [? _]; discriminate].
Qed.

Lemma matching_other_owner i o s d :
  todos s !! i = Some d -> Todo.user d <> o -> matching i o s = None.
Proof.
  intros Hd Hne. unfold matching. rewrite Hd.
  destruct (decide (Todo.user d = o)); [contradiction | reflexivity].
Qed.

Lemma matching_absent i o s : todos s !! i = None -> matching i o s = None.
Proof. intros H. unfold matching. rewrite H. reflexivity. Qed.

(** Unfold one handler down to the store steps. *)
Ltac handler :=
  unfold controller, web_handler, updateTodo, deleteTodo, markAsRead,
    createTodo, getTodos, put_todos_id, delete_todos_id,
    patch_todos_id_read, post_todos, try_catch, Todo_findOne,
    Todo_findOneAndDelete, bind, lift, ret, cast; cbn beta iota.

(** No match under the caller's identity: the three by-id operations
    answer alike and leave the store alone. *)
Lemma by_id_no_match r decoded owner req res now s i :
  by_id r = true ->
  castObjectId (Payload.id decoded) = Some owner ->
  castObjectId (params_id req) = Some i ->
  matching i owner s = None ->
  controller castObjectId r decoded req res now s =
  (json (JError "Todo not found") (status 404 res), s).
Proof.
  intros Hr Ho Hi Hm.
  destruct r; try discriminate; handler; rewrite Hi, Ho, Hm; reflexivity.
Qed.

Lemma by_id_bad_id r decoded req res now s :
  by_id r = true ->
  castObjectId (params_id req) = None ->
  controller castObjectId r decoded req res now s =
  (json (JError "Invalid todo ID") (status 400 res), s).
Proof.
  intros Hr Hi.
  destruct r; try discriminate; handler; rewrite Hi; reflexivity.
Qed.

(** *** Saving *)

Lemma validate_ok d : Todo.title d <> "" -> Todo.validate d = Ok tt.
Proof.
  intros H. unfold Todo.validate.
  destruct (decide (Todo.title d = "")); [contradiction | reflexivity].
Qed.

Lemma validate_empty d : Todo.title d = "" -> Todo.validate d = Throw ValidationError.
Proof.
  intros H. unfold Todo.validate.
  destruct (decide (Todo.title d = "")); [reflexivity | contradiction].
Qed.

Lemma save_invalid d now s :
  Todo.title d = "" -> save d now s = (Throw ValidationError, s).
Proof. intros H. unfold save, bind, lift. rewrite (validate_empty _ H). reflexivity. Qed.

Lemma save_new d now s :
  Todo.title d <> "" ->
  todos s !! Todo._id d = None ->
  save d now s =
    (Ok (Todo.set_timestamps now now d),
     mkStore (<[Todo._id d := Todo.set_timestamps now now d]> (todos s))
             (nextId s)).
Proof.
  intros Ht Hn. unfold save, bind, lift.
  rewrite (validate_ok _ Ht), Hn. reflexivity.
Qed.

(** Saving a document that is in the collection: what comes back is the
    document as assigned, up to [updatedAt], and it is what the collection
    then holds under that [_id]. *)
Lemma save_existing d old now s :
  Todo.title d <> "" ->
  todos s !! Todo._id d = Some old ->
  exists u : Z,
    save d now s =
      (Ok (Todo.set_timestamps (Todo.createdAt d) u d),
       mkStore (<[Todo._id d := Todo.set_timestamps (Todo.createdAt d) u d]>
                  (todos s)) (nextId s)).
Proof.
  intros Ht Ho. unfold save, bind, lift.
  rewrite (validate_ok _ Ht), Ho.
  destruct (decide (old = d)) as [->|Hne].
  - exists (Todo.updatedAt d).
    assert (Heta : Todo.set_timestamps (Todo.createdAt d) (Todo.updatedAt d) d = d)
      by (destruct d; reflexivity).
    rewrite Heta, (insert_id _ _ _ Ho). destruct s; reflexivity.
  - exists now. reflexivity.
Qed.

Lemma save_unchanged d now s :
  Todo.title d <> "" ->
  todos s !! Todo._id d = Some d ->
  save d now s = (Ok d, s).
Proof.
  intros Ht Ho. unfold save, bind, lift.
  rewrite (validate_ok _ Ht), Ho.
  destruct (decide (d = d)); [reflexivity | contradiction].
Qed.

Lemma wf_lookup s k d :
  wf s -> todos s !! k = Some d ->
  Todo._id d = k /\ (k < nextId s)%N /\ Todo.title d <> "".
Proof. intros Hwf Hk. exact (Hwf k d Hk). Qed.

Lemma wf_next_free s : wf s -> todos s !! nextId s = None.
Proof.
  intros Hwf. destruct (todos s !! nextId s) as [d|] eqn:Hk; [|reflexivity].
  destruct (wf_lookup _ _ _ Hwf Hk) as (_ & Hlt & _). lia.
Qed.

Lemma entry_untouched req :
  statusCode (entry req) = 200%nat /\ sent (entry req) = None.
Proof.
  unfold entry_res, cookie_jwt.
  destruct (cookies_token req) as [[|c t]|]; auto.
  destruct (jwt_verify _) as [d|]; auto.
  destruct (User_findById _ _ _); auto.
Qed.

(** Claim C1. A todo owned by one user, addressed by another identified
    user through Update, Delete or MarkRead: the answer is 404 with
    [{ error: 'Todo not found' }], the store is unchanged, and the whole
    outcome equals the outcome for a well-formed id under which no record
    is stored. *)
Theorem C1_foreign_todo_is_not_found
    (r : ApiRoute) (req : Req) (now : Z) (s : Store)
    (decoded : Payload.t) (B : ObjectId) (tid : ObjectId) (T : Todo.t) :
  by_id r = true ->
  identity req = Some (decoded, B) ->
  castObjectId (params_id req) = Some tid ->
  todos s !! tid = Some T ->
  Todo.user T <> B ->
  app' (Api r) req now s =
    (json (JError "Todo not found") (status 404 (entry req)), s)
  /\ forall (missing : string) (tid' : ObjectId),
       castObjectId missing = Some tid' ->
       todos s !! tid' = None ->
       app' (Api r) (with_id missing req) now s = app' (Api r) req now s.
Proof.
  intros Hr Hid Hc HT Hne.
  pose proof (identity_cast _ _ _ Hid) as Ho.
  assert (Hhere : app' (Api r) req now s =
    (json (JError "Todo not found") (status 404 (entry req)), s)).
  { rewrite (app_identified _ _ _ _ _ _ Hid).
    eapply by_id_no_match; eauto using matching_other_owner. }
  split; [exact Hhere|].
  intros missing tid' Hc' Habs. rewrite Hhere.
  rewrite (app_identified r (with_id missing req) decoded B) by exact Hid.
  rewrite entry_with_id.
  eapply by_id_no_match; eauto using matching_absent.
Qed.

(** Claim C8. An identified Update, Delete or MarkRead whose [:id] does not
    cast to a store identifier is answered 400 with
    [{ error: 'Invalid todo ID' }] and the store is unchanged. *)
Theorem C8_malformed_id_is_400
    (r : ApiRoute) (req : Req) (now : Z) (s : Store)
    (decoded : Payload.t) (owner : ObjectId) :
  by_id r = true ->
  identity req = Some (decoded, owner) ->
  castObjectId (params_id req) = None ->
  app' (Api r) req now s =
    (json (JError "Invalid todo ID") (status 400 (entry req)), s).
Proof.
  intros Hr Hid Hc.
  rewrite (app_identified _ _ _ _ _ _ Hid).
  apply by_id_bad_id; assumption.
Qed.

(** Claim C2. Create on an identified request: a missing or empty title is
    answered 400 with [{ error: 'Title is required' }] and nothing is
    stored; a non-empty title is answered 201 with the new record, which
    has the given title, the given description or [''], [read] and
    [completed] false and the caller as owner, and which is the one record
    added to the collection. *)
Theorem C2_create
    (req : Req) (now : Z) (s : Store)
    (decoded : Payload.t) (owner : ObjectId) :
  identity req = Some (decoded, owner) ->
  wf s ->
  (Body.title (body req) = None \/ Body.title (body req) = Some "" ->
   app' (Api POST_api_todos) req now s =
     (json (JError "Title is required") (status 400 (entry req)), s))
  /\ (forall title : string,
        Body.title (body req) = Some title -> title <> "" ->
        let todo :=
          Todo.mk (nextId s) title
                  (default "" (Body.description (body req)))
                  false false owner now now in
        app' (Api POST_api_todos) req now s =
          (json (JTodo todo) (status 201 (entry req)),
           mkStore (<[nextId s := todo]> (todos s)) (N.succ (nextId s)))
        /\ todos s !! nextId s = None).
Proof.
  intros Hid Hwf.
  pose proof (identity_cast _ _ _ Hid) as Ho.
  rewrite (app_identified _ _ _ _ _ _ Hid).
  split.
  - intros [H|H]; handler; rewrite H; reflexivity.
  - intros title Ht Hne todo.
    split; [|apply wf_next_free, Hwf].
    handler. rewrite Ht.
    destruct title as [|c t]; [contradiction|].
    unfold Todo_new, cast. rewrite Ho.
    rewrite save_new; [reflexivity | discriminate |].
    cbn. apply wf_next_free, Hwf.
Qed.

Lemma assign_fields_spec b d :
  Todo.title (assign_fields b d) = default (Todo.title d) (Body.title b)
  /\ Todo.description (assign_fields b d) =
       default (Todo.description d) (Body.description b)
  /\ Todo.completed (assign_fields b d) =
       default (Todo.completed d) (Body.completed b)
  /\ Todo.read (assign_fields b d) = Todo.read d
  /\ Todo.user (assign_fields b d) = Todo.user d
  /\ Todo._id (assign_fields b d) = Todo._id d
  /\ Todo.createdAt (assign_fields b d) = Todo.createdAt d.
Proof.
  unfold assign_fields.
  destruct (Body.title b), (Body.description b), (Body.completed b);
    repeat split.
Qed.

(** The update handler on a record that matches. *)
Lemma update_matching decoded owner req res now s tid T :
  castObjectId (Payload.id decoded) = Some owner ->
  castObjectId (params_id req) = Some tid ->
  todos s !! tid = Some T ->
  Todo.user T = owner ->
  Todo._id T = tid ->
  updateTodo castObjectId decoded req res now s =
    try_catch
      (await todo <- save (assign_fields (body req) T) now;
       ret (json (JTodo todo) res))
      (cast_or_server_error res) s.
Proof.
  intros Ho Hi HT Hu Hk. handler. rewrite Hi, Ho.
  unfold matching. rewrite HT.
  destruct (decide (Todo.user T = owner)); [reflexivity | contradiction].
Qed.

(** Claim C3, as the code has it. On a record that matches (id, owner) and
    for an input whose present fields have the schema's types (title and
    description strings, completed a boolean, which is what [Body.t]
    holds): whatever such input, an empty title included, Update leaves
    the stored [read] flag and owner as they were; and when the input's
    title is absent or non-empty, the record returned and stored has
    exactly the present fields among title, description and completed
    overwritten and every other field but [updatedAt] as before. *)
Theorem C3_partial_update
    (req : Req) (now : Z) (s : Store)
    (decoded : Payload.t) (owner : ObjectId) (tid : ObjectId) (T : Todo.t) :
  identity req = Some (decoded, owner) ->
  castObjectId (params_id req) = Some tid ->
  todos s !! tid = Some T ->
  Todo.user T = owner ->
  wf s ->
  (exists T' : Todo.t,
     todos (snd (app' (Api PUT_api_todos_id) req now s)) !! tid = Some T'
     /\ Todo.read T' = Todo.read T /\ Todo.user T' = Todo.user T)
  /\ (Body.title (body req) <> Some "" ->
      exists T' : Todo.t,
        app' (Api PUT_api_todos_id) req now s =
          (json (JTodo T') (entry req),
           mkStore (<[tid := T']> (todos s)) (nextId s))
        /\ Todo.title T' = default (Todo.title T) (Body.title (body req))
        /\ Todo.description T' =
             default (Todo.description T) (Body.description (body req))
        /\ Todo.completed T' =
             default (Todo.completed T) (Body.completed (body req))
        /\ Todo.read T' = Todo.read T
        /\ Todo.user T' = Todo.user T
        /\ Todo._id T' = tid
        /\ Todo.createdAt T' = Todo.createdAt T).
Proof.
  intros Hid Hi HT Hu Hwf.
  pose proof (identity_cast _ _ _ Hid) as Ho.
  destruct (wf_lookup _ _ _ Hwf HT) as (Hk & _ & Htitle).
  rewrite (app_identified _ _ _ _ _ _ Hid). cbn [controller].
  rewrite (update_matching _ _ _ _ _ _ _ _ Ho Hi HT Hu Hk).
  set (d := assign_fields (body req) T).
  destruct (assign_fields_spec (body req) T)
    as (Ft & Fd & Fc & Fr & Fu & Fi & Fa). fold d in Ft, Fd, Fc, Fr, Fu, Fi, Fa.
  assert (Hold : todos s !! Todo._id d = Some T) by (rewrite Fi, Hk; exact HT).
  assert (Hgood : Todo.title d <> "" ->
    exists T' : Todo.t,
      try_catch (await todo <- save d now; ret (json (JTodo todo) (entry req)))
                (cast_or_server_error (entry req)) s =
        (json (JTodo T') (entry req),
         mkStore (<[tid := T']> (todos s)) (nextId s))
      /\ Todo.title T' = Todo.title d
      /\ Todo.description T' = Todo.description d
      /\ Todo.completed T' = Todo.completed d
      /\ Todo.read T' = Todo.read d
      /\ Todo.user T' = Todo.user d
      /\ Todo._id T' = Todo._id d
      /\ Todo.createdAt T' = Todo.createdAt d).
  { intros Hd. destruct (save_existing d T now s Hd Hold) as [u Hs].
    exists (Todo.set_timestamps (Todo.createdAt d) u d).
    unfold try_catch, bind, ret. rewrite Hs, Fi, Hk.
    repeat split; cbn; congruence. }
  split.
  - destruct (decide (Todo.title d = "")) as [He|Hd].
    + exists T. unfold try_catch, bind.
      rewrite (save_invalid _ _ _ He). cbn. auto.
    + destruct (Hgood Hd) as (T' & -> & _ & _ & _ & Hr & Hu' & _).
      exists T'. cbn. rewrite lookup_insert_eq.
      split; [reflexivity|]. split; congruence.
  - intros Hne.
    assert (Hd : Todo.title d <> "").
    { rewrite Ft. destruct (Body.title (body req)) as [t|]; cbn.
      - intros ->. apply Hne. reflexivity.
      - exact Htitle. }
    destruct (Hgood Hd) as (T' & HT' & Gt & Gd & Gc & Gr & Gu & Gi & Ga).
    exists T'. split; [exact HT'|].
    repeat split; congruence.
Qed.

(** Claim C6. MarkRead on a record that matches (id, owner) answers 200
    with the record whose [read] flag is true and stores it; a second
    MarkRead, at any later time, answers the same and changes nothing. *)
Theorem C6_mark_read_idempotent
    (req : Req) (now : Z) (s : Store)
    (decoded : Payload.t) (owner : ObjectId) (tid : ObjectId) (T : Todo.t) :
  identity req = Some (decoded, owner) ->
  castObjectId (params_id req) = Some tid ->
  todos s !! tid = Some T ->
  Todo.user T = owner ->
  wf s ->
  exists (T1 : Todo.t) (s1 : Store),
    app' (Api PATCH_api_todos_id_read) req now s =
      (json (JTodo T1) (entry req), s1)
    /\ statusCode (entry req) = 200%nat
    /\ todos s1 !! tid = Some T1
    /\ Todo.read T1 = true
    /\ forall now2 : Z,
         app' (Api PATCH_api_todos_id_read) req now2 s1 =
           (json (JTodo T1) (entry req), s1).
Proof.
  intros Hid Hi HT Hu Hwf.
  pose proof (identity_cast _ _ _ Hid) as Ho.
  destruct (wf_lookup _ _ _ Hwf HT) as (Hk & _ & Htitle).
  set (d := Todo.set_read true T).
  assert (Hold : todos s !! Todo._id d = Some T) by (cbn; rewrite Hk; exact HT).
  destruct (save_existing d T now s Htitle Hold) as [u Hs].
  set (T1 := Todo.set_timestamps (Todo.createdAt d) u d) in *.
  exists T1, (mkStore (<[tid := T1]> (todos s)) (nextId s)).
  assert (Hm : matching tid owner s = Some T) by (apply matching_Some; auto).
  split; [|split; [apply entry_untouched|split; [|split]]].
  - rewrite (app_identified _ _ _ _ _ _ Hid). handler.
    rewrite Hi, Ho, Hm. fold d. rewrite Hs. cbn [Todo._id d Todo.set_read].
    rewrite Hk. reflexivity.
  - cbn. apply lookup_insert_eq.
  - reflexivity.
  - intros now2.
    rewrite (app_identified _ _ _ _ _ _ Hid). handler.
    rewrite Hi, Ho.
    assert (Hm1 : matching tid owner
                    (mkStore (<[tid := T1]> (todos s)) (nextId s)) = Some T1).
    { apply matching_Some. cbn. rewrite lookup_insert_eq. auto. }
    rewrite Hm1.
    assert (Heta : Todo.set_read true T1 = T1) by reflexivity.
    rewrite Heta, save_unchanged; [reflexivity | exact Htitle |].
    cbn. rewrite Hk. apply lookup_insert_eq.
Qed.

(** *** The two authentication gates *)

Lemma failure_message_inj f f' :
  failure_message f' = failure_message f -> f' = f.
Proof. destruct f, f'; cbn; intros H; try reflexivity; discriminate. Qed.

Lemma auth_rejects req f next res now s :
  auth_failure castObjectId jwt_verify users req = Some f ->
  auth' next req res now s =
    (json (JError (failure_message f)) (status 401 res), s).
Proof.
  unfold auth_failure, auth.
  destruct (header_token _) as [[|c t]|].
  - intros [= <-]. reflexivity.
  - destruct (jwt_verify _) as [d|e].
    + destruct (User_findById _ _ _) as [[u|]|e]; try discriminate.
      intros [= <-]. reflexivity.
    + destruct e; try discriminate; intros [= <-]; reflexivity.
  - intros [= <-]. reflexivity.
Qed.

(** Claim C4. On the bearer-token path each of the four failure causes (no
    token; a token that fails verification with [JsonWebTokenError]; one
    that fails with [TokenExpiredError]; a token that verifies but whose
    user the lookup does not find) is answered 401 with a reason string of
    its own, whatever handler stands behind the gate, and the todo store
    comes back as it was. *)
Theorem C4_gate_failures (req : Req) (f : AuthFailure) :
  auth_failure castObjectId jwt_verify users req = Some f ->
  (forall (next : Handler Payload.t) (res : Res) (now : Z) (s : Store),
     auth' next req res now s =
       (json (JError (failure_message f)) (status 401 res), s))
  /\ (forall (r : ApiRoute) (now : Z) (s : Store),
        app' (Api r) req now s =
          (json (JError (failure_message f)) (status 401 (entry req)), s))
  /\ (forall f' : AuthFailure,
        failure_message f' = failure_message f -> f' = f).
Proof.
  intros Hf. split; [|split].
  - intros. apply auth_rejects, Hf.
  - intros. rewrite app_api. apply auth_rejects, Hf.
  - apply failure_message_inj.
Qed.

(** Claim C5. A request whose token cookie fails verification is not
    answered by the cookie middleware: it clears the cookie, attaches no
    user, and the form handler runs as for an anonymous request; the same
    token in the Authorization header of an API request is answered 401. *)
Theorem C5_cookie_fail_open (req : Req) (token : string) (e : ErrorName) :
  cookies_token req = Some token ->
  token <> "" ->
  jwt_verify token = Throw e ->
  e = JsonWebTokenError \/ e = TokenExpiredError ->
  (forall res : Res, cookie req res = (None, clearCookie res))
  /\ sent (entry req) = None
  /\ (forall (r : WebRoute) (now : Z) (s : Store),
        app' (Web r) req now s =
          web_handler castObjectId r None req (clearCookie res0) now s)
  /\ (forall (req' : Req) (next : Handler Payload.t) (res : Res)
             (now : Z) (s : Store),
        header_token (headers_authorization req') = Some token ->
        exists msg : string,
          auth' next req' res now s =
            (json (JError msg) (status 401 res), s)).
Proof.
  intros Hc Hne Hv He.
  assert (Hcookie : forall res, cookie req res = (None, clearCookie res)).
  { intros res. unfold cookie_jwt. rewrite Hc.
    destruct token as [|c t]; [contradiction|]. rewrite Hv. reflexivity. }
  split; [exact Hcookie|]. split; [apply entry_untouched|]. split.
  - intros. rewrite app_web. unfold entry_res.
    rewrite Hcookie. reflexivity.
  - intros req' next res now s Hh. unfold auth. rewrite Hh.
    destruct token as [|c t]; [contradiction|]. rewrite Hv.
    destruct He as [-> | ->]; eexists; reflexivity.
Qed.

(** Claim C9, as the code has it. On the cookie path, a token that verifies
    but whose user the lookup does not find leaves the request anonymous
    and the cookie in place; the cookie is cleared exactly when a token is
    present and either its verification or the user lookup throws. *)
Theorem C9_cookie_unknown_user (req : Req) (res : Res) :
  clearedCookie res = false ->
  (forall (token : string) (decoded : Payload.t),
     cookies_token req = Some token ->
     token <> "" ->
     jwt_verify token = Ok decoded ->
     User_findById castObjectId users (IdStr (Payload.id decoded)) = Ok None ->
     cookie req res = (None, res))
  /\ (clearedCookie (snd (cookie req res)) = true <->
      exists (token : string) (e : ErrorName),
        cookies_token req = Some token /\ token <> "" /\
        (jwt_verify token = Throw e \/
         exists decoded : Payload.t,
           jwt_verify token = Ok decoded /\
           User_findById castObjectId users (IdStr (Payload.id decoded))
             = Throw e)).
Proof.
  intros Hres. split.
  - intros token decoded Hc Hne Hv Hu. unfold cookie_jwt. rewrite Hc.
    destruct token as [|c t]; [contradiction|]. rewrite Hv, Hu. reflexivity.
  - unfold cookie_jwt.
    destruct (cookies_token req) as [[|c t]|] eqn:Hc; cbn.
    + rewrite Hres. split; [discriminate|].
      intros (token & e & [= <-] & Hne & _). contradiction.
    + destruct (jwt_verify (String c t)) as [d|e] eqn:Hv.
      * destruct (User_findById _ _ _) as [u|e] eqn:Hu; cbn.
        -- rewrite Hres. split; [discriminate|].
           intros (token & e & [= <-] & _ & [Hv'|(d' & Hv' & Hu')]);
             rewrite Hv in Hv'; [discriminate|].
           injection Hv' as <-. rewrite Hu in Hu'. discriminate.
        -- split; [|reflexivity]. intros _.
           exists (String c t), e. split; [reflexivity|].
           split; [discriminate|]. right. exists d. auto.
      * cbn. split; [|reflexivity]. intros _.
        exists (String c t), e. split; [reflexivity|].
        split; [discriminate|]. left. exact Hv.
    + rewrite Hres. split; [discriminate|].
      intros (token & e & Hc' & _). discriminate.
Qed.

(** Claim C10. On the form surface, an Update, Delete or MarkRead by a
    signed-in user whose [:id] does not cast is answered 500 with
    [{ error: 'Server error' }] and the store is unchanged, where the API
    surface answers 400 for the same [:id]. *)
Theorem C10_web_malformed_id_is_500
    (r : WebRoute) (req : Req) (now : Z) (s : Store) (u : User.t) :
  web_by_id r = true ->
  fst (cookie req res0) = Some u ->
  castObjectId (params_id req) = None ->
  app' (Web r) req now s =
    (json (JError "Server error") (status 500 (entry req)), s)
  /\ statusCode (fst (app' (Web r) req now s)) = 500%nat
  /\ (forall (ar : ApiRoute) (req' : Req) (decoded : Payload.t)
             (owner : ObjectId),
        by_id ar = true ->
        identity req' = Some (decoded, owner) ->
        params_id req' = params_id req ->
        statusCode (fst (app' (Api ar) req' now s)) = 400%nat).
Proof.
  intros Hr Hu Hc.
  assert (Hweb : app' (Web r) req now s =
    (json (JError "Server error") (status 500 (entry req)), s)).
  { rewrite app_web, Hu.
    destruct r; try discriminate; handler; rewrite Hc; reflexivity. }
  split; [exact Hweb|]. split; [rewrite Hweb; reflexivity|].
  intros ar req' decoded owner Har Hid Hp.
  rewrite (app_identified _ _ _ _ _ _ Hid).
  rewrite by_id_bad_id; [reflexivity | exact Har | rewrite Hp; exact Hc].
Qed.

(** *** The collection across requests *)

Lemma evolves_refl s : wf s -> evolves s s.
Proof. intros H. split; [exact H|]. split; [lia | auto]. Qed.

Lemma evolves_write s k d :
  wf s -> is_Some (todos s !! k) -> Todo._id d = k -> Todo.title d <> "" ->
  evolves s (mkStore (<[k := d]> (todos s)) (nextId s)).
Proof.
  intros Hwf [old Hold] Hk Ht.
  destruct (wf_lookup _ _ _ Hwf Hold) as (_ & Hlt & _).
  split; [|split; [cbn; lia|]].
  - unfold wf; cbn. apply map_Forall_insert_2; [|exact Hwf].
    repeat split; assumption.
  - intros k' _ Hnone. cbn.
    rewrite lookup_insert_ne; [exact Hnone|]. intros ->. congruence.
Qed.

Lemma evolves_insert_next s d :
  wf s -> Todo._id d = nextId s -> Todo.title d <> "" ->
  evolves s (mkStore (<[nextId s := d]> (todos s)) (N.succ (nextId s))).
Proof.
  intros Hwf Hk Ht.
  split; [|split; [cbn; lia|]].
  - unfold wf; cbn. apply map_Forall_insert_2.
    + repeat split; [exact Hk | lia | exact Ht].
    + intros k' d' Hd'. destruct (Hwf k' d' Hd') as (? & ? & ?).
      repeat split; [assumption | cbn in *; lia | assumption].
  - intros k' Hlt Hnone. cbn.
    rewrite lookup_insert_ne; [exact Hnone | lia].
Qed.

Lemma evolves_counter s :
  wf s -> evolves s (mkStore (todos s) (N.succ (nextId s))).
Proof.
  intros Hwf. split; [|split; [cbn; lia | auto]].
  intros k' d' Hd'. destruct (Hwf k' d' Hd') as (? & ? & ?).
  repeat split; [assumption | cbn in *; lia | assumption].
Qed.

Lemma evolves_delete s k :
  wf s -> evolves s (mkStore (delete k (todos s)) (nextId s)).
Proof.
  intros Hwf. split; [|split; [cbn; lia|]].
  - unfold wf; cbn. apply map_Forall_delete, Hwf.
  - intros k' _ Hnone. cbn.
    destruct (decide (k = k')) as [->|Hne];
      [apply lookup_delete_eq | rewrite lookup_delete_ne; auto].
Qed.

Lemma save_evolves d now s :
  wf s -> is_Some (todos s !! Todo._id d) ->
  evolves s (snd (save d now s)).
Proof.
  intros Hwf Hsome.
  destruct (decide (Todo.title d = "")) as [He|Hne].
  - rewrite (save_invalid _ _ _ He). apply evolves_refl, Hwf.
  - destruct Hsome as [old Hold].
    destruct (save_existing d old now s Hne Hold) as [u ->]. cbn [snd].
    apply evolves_write; eauto.
Qed.

Lemma new_save_evolves title description owner now s :
  wf s ->
  evolves s
    (snd ((await todo <- Todo_new castObjectId title description owner
                          false false;
           save todo now) s)).
Proof.
  intros Hwf. unfold bind, Todo_new.
  destruct (cast castObjectId owner) as [o|e]; [|apply evolves_counter, Hwf].
  set (d := Todo.mk (nextId s) title description false false o 0 0).
  destruct (decide (title = "")) as [He|Hne].
  - rewrite save_invalid by exact He. apply evolves_counter, Hwf.
  - rewrite save_new; [| exact Hne | cbn; apply wf_next_free, Hwf].
    cbn [snd Todo._id d nextId todos].
    apply evolves_insert_next; [exact Hwf | reflexivity | exact Hne].
Qed.

Lemma create_evolves (m : Todo.t -> M Res) title description owner now
    (h : ErrorName -> Res) s :
  wf s ->
  (forall d s1, snd (m d s1) = s1) ->
  evolves s
    (snd (try_catch
            (await todo <- Todo_new castObjectId title description owner
                             false false;
             await todo <- save todo now;
             m todo) h s)).
Proof.
  intros Hwf Hm.
  pose proof (new_save_evolves title description owner now s Hwf) as H.
  unfold try_catch, bind in *.
  destruct (Todo_new _ _ _ _ _ _ s) as [[d|e] s1]; [|exact H].
  destruct (save d now s1) as [[d'|e] s2]; [|exact H].
  specialize (Hm d' s2). destruct (m d' s2) as [[r|e] s3]; cbn in *; subst; exact H.
Qed.

Lemma write_found_evolves (f : Todo.t -> Todo.t) (m : Todo.t -> M Res)
    id owner now (h : ErrorName -> Res) (r404 : Res) s :
  wf s ->
  (forall d, Todo._id (f d) = Todo._id d) ->
  (forall d s1, snd (m d s1) = s1) ->
  evolves s
    (snd (try_catch
            (await todo <- Todo_findOne castObjectId id owner;
             match todo with
             | None => ret r404
             | Some todo => await todo <- save (f todo) now; m todo
             end) h s)).
Proof.
  intros Hwf Hf Hm. unfold try_catch, Todo_findOne, bind, lift, ret.
  destruct (cast castObjectId id) as [i|e]; [|apply evolves_refl, Hwf].
  destruct (cast castObjectId owner) as [o|e]; [|apply evolves_refl, Hwf].
  destruct (matching i o s) as [T|] eqn:Hmatch; [|apply evolves_refl, Hwf].
  apply matching_Some in Hmatch as [HT _].
  destruct (wf_lookup _ _ _ Hwf HT) as (Hk & _ & _).
  assert (Hsome : is_Some (todos s !! Todo._id (f T)))
    by (rewrite Hf, Hk; eauto).
  pose proof (save_evolves (f T) now s Hwf Hsome) as H.
  destruct (save (f T) now s) as [[d'|e] s2]; [|exact H].
  specialize (Hm d' s2). destruct (m d' s2) as [[r|e] s3]; cbn in *; subst; exact H.
Qed.

Lemma delete_found_evolves id owner (h : ErrorName -> Res) (r404 r200 : Res) s :
  wf s ->
  evolves s
    (snd (try_catch
            (await result <- Todo_findOneAndDelete castObjectId id owner;
             match result with
             | None => ret r404
             | Some _ => ret r200
             end) h s)).
Proof.
  intros Hwf. unfold try_catch, Todo_findOneAndDelete, bind, lift, ret.
  destruct (cast castObjectId id) as [i|e]; [|apply evolves_refl, Hwf].
  destruct (cast castObjectId owner) as [o|e]; [|apply evolves_refl, Hwf].
  destruct (matching i o s) as [T|]; cbn;
    [apply evolves_delete, Hwf | apply evolves_refl, Hwf].
Qed.

Lemma controller_evolves r decoded req res now s :
  wf s -> evolves s (snd (controller castObjectId r decoded req res now s)).
Proof.
  intros Hwf. destruct r; cbn [controller].
  - unfold getTodos, try_catch, Todo_find_sorted, bind, lift, ret.
    destruct (cast castObjectId _); apply evolves_refl, Hwf.
  - unfold createTodo.
    destruct (Body.title (body req)) as [[|c t]|];
      try (apply evolves_refl, Hwf).
    apply create_evolves; [exact Hwf | reflexivity].
  - apply (write_found_evolves (assign_fields (body req))); [exact Hwf | | reflexivity].
    intros d. apply assign_fields_spec.
  - apply delete_found_evolves, Hwf.
  - apply (write_found_evolves (Todo.set_read true)); [exact Hwf | | ]; reflexivity.
Qed.

Lemma web_evolves r user req res now s :
  wf s -> evolves s (snd (web_handler castObjectId r user req res now s)).
Proof.
  intros Hwf.
  destruct r; cbn [web_handler];
    unfold post_todos, put_todos_id, delete_todos_id, patch_todos_id_read;
    destruct user as [u|]; try (apply evolves_refl, Hwf).
  - destruct (Body.title (body req)) as [[|c t]|];
      try (apply evolves_refl, Hwf).
    apply create_evolves; [exact Hwf | reflexivity].
  - apply (write_found_evolves (assign_fields (body req))
             (fun _ => ret (json JSuccess res))); [exact Hwf | | reflexivity].
    intros d. apply assign_fields_spec.
  - apply delete_found_evolves, Hwf.
  - apply (write_found_evolves (Todo.set_read true)
             (fun _ => ret (json JSuccess res))); [exact Hwf | | ]; reflexivity.
Qed.

Lemma auth_evolves next req res now s :
  wf s ->
  (forall decoded, evolves s (snd (next decoded req res now s))) ->
  evolves s (snd (auth' next req res now s)).
Proof.
  intros Hwf Hnext. unfold auth.
  destruct (header_token _) as [[|c t]|]; try (apply evolves_refl, Hwf).
  destruct (jwt_verify _) as [d|e]; [|apply evolves_refl, Hwf].
  destruct (User_findById _ _ _) as [[u|]|e];
    [apply Hnext | apply evolves_refl, Hwf | apply evolves_refl, Hwf].
Qed.

Lemma app_evolves route req now s :
  wf s -> evolves s (snd (app' route req now s)).
Proof.
  intros Hwf. destruct route as [r|r].
  - rewrite app_api. apply auth_evolves; [exact Hwf|].
    intros decoded. apply controller_evolves, Hwf.
  - rewrite app_web. apply web_evolves, Hwf.
Qed.

(** An identifier that was issued and is out of use stays out of use
    through any later history. *)
Lemma run_retired trace : forall s k,
  wf s -> (k < nextId s)%N -> todos s !! k = None ->
  wf (run castObjectId jwt_verify users trace s)
  /\ todos (run castObjectId jwt_verify users trace s) !! k = None.
Proof.
  induction trace as [|[[route req] now] rest IH]; intros s k Hwf Hlt Hnone.
  - auto.
  - cbn [run]. destruct (app_evolves route req now s Hwf) as (Hwf' & Hle & Hkeep).
    apply IH; [exact Hwf' | lia | apply Hkeep; assumption].
Qed.

(** Every collection the server can reach from the empty one is
    well-formed. *)
Lemma wf_empty : wf (mkStore ∅ 0).
Proof. apply map_Forall_empty. Qed.

Lemma run_wf trace : forall s,
  wf s -> wf (run castObjectId jwt_verify users trace s).
Proof.
  induction trace as [|[[route req] now] rest IH]; intros s Hwf.
  - exact Hwf.
  - cbn [run]. apply IH, app_evolves, Hwf.
Qed.

(** What List answers: the caller's records, and only records that are in
    the collection. *)
Lemma list_members decoded owner req res now s :
  castObjectId (Payload.id decoded) = Some owner ->
  exists l : list Todo.t,
    getTodos castObjectId decoded req res now s = (json (JTodos l) res, s)
    /\ forall d : Todo.t,
         d ∈ l <-> (exists k : N, todos s !! k = Some d) /\ Todo.user d = owner.
Proof.
  intros Ho. eexists. split.
  - unfold getTodos, try_catch, Todo_find_sorted, bind, lift, ret, cast.
    rewrite Ho. reflexivity.
  - intros d. rewrite merge_sort_Permutation, list_elem_of_filter, list_elem_of_fmap.
    split.
    + intros [Hu ([k d'] & -> & Hin)]. apply elem_of_map_to_list in Hin. eauto.
    + intros [[k Hk] Hu]. split; [exact Hu|].
      exists (k, d). split; [reflexivity|]. apply elem_of_map_to_list, Hk.
Qed.

(** Claim C7. Delete on a record that matches (id, owner) answers 200 and
    removes exactly that record; after any later history of requests no
    List answer contains a record with the deleted id; and a Delete whose
    id matches no record of the caller, as the deleted id no longer does,
    is answered 404 with the store unchanged. *)
Theorem C7_delete
    (req : Req) (now : Z) (s : Store)
    (decoded : Payload.t) (owner : ObjectId) (tid : ObjectId) (T : Todo.t) :
  identity req = Some (decoded, owner) ->
  castObjectId (params_id req) = Some tid ->
  todos s !! tid = Some T ->
  Todo.user T = owner ->
  wf s ->
  let s' := mkStore (delete tid (todos s)) (nextId s) in
  app' (Api DELETE_api_todos_id) req now s =
    (json (JMessage "Todo deleted successfully") (entry req), s')
  /\ (forall (trace : list (Route * Req * Z)) (req2 : Req) (now2 : Z)
             (decoded2 : Payload.t) (owner2 : ObjectId),
        identity req2 = Some (decoded2, owner2) ->
        let s2 := run castObjectId jwt_verify users trace s' in
        exists l : list Todo.t,
          app' (Api GET_api_todos) req2 now2 s2 =
            (json (JTodos l) (entry req2), s2)
          /\ forall d : Todo.t, d ∈ l -> Todo._id d <> tid)
  /\ (forall now2 : Z,
        app' (Api DELETE_api_todos_id) req now2 s' =
          (json (JError "Todo not found") (status 404 (entry req)), s'))
  /\ (forall (req3 : Req) (now3 : Z) (s3 : Store) (decoded3 : Payload.t)
             (owner3 : ObjectId) (tid3 : ObjectId),
        identity req3 = Some (decoded3, owner3) ->
        castObjectId (params_id req3) = Some tid3 ->
        matching tid3 owner3 s3 = None ->
        app' (Api DELETE_api_todos_id) req3 now3 s3 =
          (json (JError "Todo not found") (status 404 (entry req3)), s3)).
Proof.
  intros Hid Hi HT Hu Hwf s'.
  pose proof (identity_cast _ _ _ Hid) as Ho.
  destruct (wf_lookup _ _ _ Hwf HT) as (Hk & Hlt & _).
  assert (Hgone : todos s' !! tid = None) by apply lookup_delete_eq.
  assert (Hnomatch : forall req3 now3 s3 decoded3 owner3 tid3,
    identity req3 = Some (decoded3, owner3) ->
    castObjectId (params_id req3) = Some tid3 ->
    matching tid3 owner3 s3 = None ->
    app' (Api DELETE_api_todos_id) req3 now3 s3 =
      (json (JError "Todo not found") (status 404 (entry req3)), s3)).
  { intros req3 now3 s3 decoded3 owner3 tid3 Hid3 Hi3 Hm3.
    rewrite (app_identified _ _ _ _ _ _ Hid3).
    eapply by_id_no_match; eauto using identity_cast. }
  split; [|split; [|split]].
  - rewrite (app_identified _ _ _ _ _ _ Hid). handler.
    rewrite Hi, Ho.
    assert (Hm : matching tid owner s = Some T) by (apply matching_Some; auto).
    rewrite Hm. reflexivity.
  - intros trace req2 now2 decoded2 owner2 Hid2 s2.
    destruct (run_retired trace s' tid) as [Hwf2 Hnone2];
      [apply evolves_delete, Hwf | exact Hlt | exact Hgone |].
    fold s2 in Hwf2, Hnone2.
    destruct (list_members decoded2 owner2 req2 (entry req2) now2 s2
                (identity_cast _ _ _ Hid2)) as (l & Hl & Hmem).
    exists l. split.
    + rewrite (app_identified _ _ _ _ _ _ Hid2). exact Hl.
    + intros d Hd Heq. apply Hmem in Hd as [[k Hkd] _].
      destruct (wf_lookup _ _ _ Hwf2 Hkd) as (Hk' & _ & _).
      rewrite Heq in Hk'. subst k. congruence.
  - intros now2. eapply Hnomatch; eauto using matching_absent.
  - exact Hnomatch.
Qed.

End Properties.

(** ** The properties at the concrete instance *)

Lemma sample_store_wf : wf sample_store.
Proof.
  apply map_Forall_insert_2; [|apply map_Forall_empty].
  repeat split; first [reflexivity | discriminate].
Defined.

Lemma C1_witness :
  by_id PUT_api_todos_id = true
  /\ identity_of hex24 sample_verify sample_users
       (bearer "tok-bob" milk_id no_body) = Some (bob, 178%N)
  /\ hex24 milk_id = Some 1%N
  /\ todos sample_store !! 1%N = Some milk
  /\ Todo.user milk <> 178%N
  /\ sample_app (Api PUT_api_todos_id) (bearer "tok-bob" milk_id no_body)
       20 sample_store
     = (mkRes 404 (Some (JError "Todo not found")) false, sample_store).
Proof.
  repeat (split; [first [reflexivity | discriminate]|]).
  apply (C1_foreign_todo_is_not_found hex24 sample_verify sample_users
           PUT_api_todos_id (bearer "tok-bob" milk_id no_body) 20
           sample_store bob 178%N 1%N milk);
    first [reflexivity | discriminate].
Defined.

Lemma C2_witness :
  identity_of hex24 sample_verify sample_users
    (bearer "tok-alice" "" (Body.mk (Some "Buy milk") None None))
    = Some (alice, 161%N)
  /\ wf sample_store
  /\ sample_app (Api POST_api_todos)
       (bearer "tok-alice" "" (Body.mk (Some "Buy milk") None None))
       20 sample_store
     = (mkRes 201
          (Some (JTodo (Todo.mk 2 "Buy milk" "" false false 161 20 20)))
          false,
        mkStore (<[2%N := Todo.mk 2 "Buy milk" "" false false 161 20 20]>
                   (todos sample_store)) 3).
Proof.
  split; [reflexivity|]. split; [exact sample_store_wf|].
  apply (C2_create hex24 sample_verify sample_users
           (bearer "tok-alice" "" (Body.mk (Some "Buy milk") None None)) 20
           sample_store alice 161%N eq_refl sample_store_wf);
    first [reflexivity | discriminate].
Defined.

Lemma C3_witness :
  identity_of hex24 sample_verify sample_users
    (bearer "tok-alice" milk_id (Body.mk None None (Some true)))
    = Some (alice, 161%N)
  /\ hex24 milk_id = Some 1%N
  /\ todos sample_store !! 1%N = Some milk
  /\ Todo.user milk = 161%N
  /\ wf sample_store
  /\ exists T' : Todo.t,
       sample_app (Api PUT_api_todos_id)
         (bearer "tok-alice" milk_id (Body.mk None None (Some true)))
         20 sample_store
       = (json (JTodo T') res0,
          mkStore (<[1%N := T']> (todos sample_store)) 2)
       /\ Todo.title T' = "Buy milk"
       /\ Todo.description T' = ""
       /\ Todo.completed T' = true
       /\ Todo.read T' = false.
Proof.
  repeat (split; [first [reflexivity | exact sample_store_wf]|]).
  destruct (C3_partial_update hex24 sample_verify sample_users
              (bearer "tok-alice" milk_id (Body.mk None None (Some true))) 20
              sample_store alice 161%N 1%N milk
              eq_refl eq_refl eq_refl eq_refl sample_store_wf)
    as [_ Hupd].
  destruct Hupd as (T' & Hrun & Ht & Hd & Hc & Hr & _); [discriminate|].
  exists T'. repeat split; assumption.
Defined.

(** An Update whose input carries an empty title and [completed: true], on
    a record that matches: neither field is overwritten. *)
Lemma C3_counterexample :
  let req := bearer "tok-alice" milk_id (Body.mk (Some "") None (Some true)) in
  let out := sample_app (Api PUT_api_todos_id) req 20 sample_store in
  identity_of hex24 sample_verify sample_users req = Some (alice, 161%N)
  /\ hex24 (params_id req) = Some 1%N
  /\ todos sample_store !! 1%N = Some milk
  /\ Todo.user milk = 161%N
  /\ Body.title (body req) = Some ""
  /\ Body.completed (body req) = Some true
  /\ Todo.title <$> todos (snd out) !! 1%N = Some "Buy milk"
  /\ Todo.completed <$> todos (snd out) !! 1%N = Some false
  /\ fst out = mkRes 500 (Some (JError "Server error")) false.
Proof. cbv zeta. repeat split; reflexivity. Qed.

Lemma C4_witness :
  auth_failure hex24 sample_verify sample_users
    (bearer "tok-expired" milk_id no_body) = Some ExpiredCredential
  /\ sample_app (Api DELETE_api_todos_id)
       (bearer "tok-expired" milk_id no_body) 20 sample_store
     = (mkRes 401 (Some (JError "Token expired")) false, sample_store).
Proof.
  split; [reflexivity|].
  apply (C4_gate_failures hex24 sample_verify sample_users
           (bearer "tok-expired" milk_id no_body) ExpiredCredential eq_refl).
Defined.

Lemma C5_witness :
  cookies_token (with_cookie "tok-expired" milk_id no_body)
    = Some "tok-expired"
  /\ "tok-expired" <> ""
  /\ sample_verify "tok-expired" = Throw TokenExpiredError
  /\ (TokenExpiredError = JsonWebTokenError
      \/ TokenExpiredError = TokenExpiredError)
  /\ cookie_jwt hex24 sample_verify sample_users
       (with_cookie "tok-expired" milk_id no_body) res0
     = (None, mkRes 200 None true).
Proof.
  split; [reflexivity|]. split; [discriminate|]. split; [reflexivity|].
  split; [right; reflexivity|].
  apply (C5_cookie_fail_open hex24 sample_verify sample_users
           (with_cookie "tok-expired" milk_id no_body) "tok-expired"
           TokenExpiredError);
    first [reflexivity | discriminate | right; reflexivity].
Defined.

Lemma C6_witness :
  identity_of hex24 sample_verify sample_users
    (bearer "tok-alice" milk_id no_body) = Some (alice, 161%N)
  /\ hex24 milk_id = Some 1%N
  /\ todos sample_store !! 1%N = Some milk
  /\ Todo.user milk = 161%N
  /\ wf sample_store
  /\ exists (T1 : Todo.t) (s1 : Store),
       sample_app (Api PATCH_api_todos_id_read)
         (bearer "tok-alice" milk_id no_body) 20 sample_store
       = (json (JTodo T1) res0, s1)
       /\ Todo.read T1 = true
       /\ sample_app (Api PATCH_api_todos_id_read)
            (bearer "tok-alice" milk_id no_body) 30 s1
          = (json (JTodo T1) res0, s1).
Proof.
  repeat (split; [first [reflexivity | exact sample_store_wf]|]).
  destruct (C6_mark_read_idempotent hex24 sample_verify sample_users
              (bearer "tok-alice" milk_id no_body) 20 sample_store
              alice 161%N 1%N milk
              eq_refl eq_refl eq_refl eq_refl sample_store_wf)
    as (T1 & s1 & Hrun & _ & _ & Hread & Hagain).
  exists T1, s1. split; [exact Hrun|]. split; [exact Hread|]. apply Hagain.
Defined.

Lemma C7_witness :
  identity_of hex24 sample_verify sample_users
    (bearer "tok-alice" milk_id no_body) = Some (alice, 161%N)
  /\ hex24 milk_id = Some 1%N
  /\ todos sample_store !! 1%N = Some milk
  /\ Todo.user milk = 161%N
  /\ wf sample_store
  /\ sample_app (Api DELETE_api_todos_id)
       (bearer "tok-alice" milk_id no_body) 20 sample_store
     = (mkRes 200 (Some (JMessage "Todo deleted successfully")) false,
        mkStore (delete 1%N (todos sample_store)) 2).
Proof.
  repeat (split; [first [reflexivity | exact sample_store_wf]|]).
  apply (C7_delete hex24 sample_verify sample_users
           (bearer "tok-alice" milk_id no_body) 20 sample_store
           alice 161%N 1%N milk
           eq_refl eq_refl eq_refl eq_refl sample_store_wf).
Defined.

Lemma C8_witness :
  by_id DELETE_api_todos_id = true
  /\ identity_of hex24 sample_verify sample_users
       (bearer "tok-alice" "not-an-id" no_body) = Some (alice, 161%N)
  /\ hex24 "not-an-id" = None
  /\ sample_app (Api DELETE_api_todos_id)
       (bearer "tok-alice" "not-an-id" no_body) 20 sample_store
     = (mkRes 400 (Some (JError "Invalid todo ID")) false, sample_store).
Proof.
  repeat (split; [reflexivity|]).
  apply (C8_malformed_id_is_400 hex24 sample_verify sample_users
           DELETE_api_todos_id (bearer "tok-alice" "not-an-id" no_body) 20
           sample_store alice 161%N);
    reflexivity.
Defined.

Lemma C9_witness :
  clearedCookie res0 = false
  /\ cookie_jwt hex24 sample_verify sample_users
       (with_cookie "tok-ghost" milk_id no_body) res0
     = (None, res0).
Proof.
  split; [reflexivity|].
  apply (proj1 (C9_cookie_unknown_user hex24 sample_verify sample_users
                  (with_cookie "tok-ghost" milk_id no_body) res0 eq_refl)
           "tok-ghost" (Payload.mk ghost_id "ghost"));
    first [reflexivity | discriminate].
Defined.

(** A token cookie that verifies, so that verification does not throw, but
    whose [id] does not cast: the user lookup throws and the cookie is
    cleared. *)
Lemma C9_counterexample :
  let req := with_cookie "tok-odd-id" milk_id no_body in
  cookies_token req = Some "tok-odd-id"
  /\ sample_verify "tok-odd-id" = Ok (Payload.mk "xyz" "odd")
  /\ User_findById hex24 sample_users (IdStr "xyz") = Throw CastError
  /\ cookie_jwt hex24 sample_verify sample_users req res0
     = (None, mkRes 200 None true)
  /\ clearedCookie
       (snd (cookie_jwt hex24 sample_verify sample_users req res0)) = true.
Proof. cbv zeta. repeat split; reflexivity. Qed.

Lemma C10_witness :
  web_by_id PUT_todos_id = true
  /\ fst (cookie_jwt hex24 sample_verify sample_users
            (with_cookie "tok-alice" "not-an-id" no_body) res0)
     = Some (User.mk 161 "alice" None)
  /\ hex24 "not-an-id" = None
  /\ sample_app (Web PUT_todos_id)
       (with_cookie "tok-alice" "not-an-id" no_body) 20 sample_store
     = (mkRes 500 (Some (JError "Server error")) false, sample_store).
Proof.
  repeat (split; [reflexivity|]).
  apply (C10_web_malformed_id_is_500 hex24 sample_verify sample_users
           PUT_todos_id (with_cookie "tok-alice" "not-an-id" no_body) 20
           sample_store (User.mk 161 "alice" None));
    reflexivity.
Defined.

(** ** The worked example of the specification, and the edges around it *)

Example split_bearer : split space "Bearer abc.def" = ["Bearer"; "abc.def"].
Proof. reflexivity. Qed.

Example split_two_spaces : header_token (Some "Bearer  abc") = Some "".
Proof. reflexivity. Qed.

Example create_buy_milk :
  sample_app (Api POST_api_todos)
    (bearer "tok-bob" "" (Body.mk (Some "Buy milk") None None)) 20
    (mkStore ∅ 0)
  = (mkRes 201 (Some (JTodo (Todo.mk 0 "Buy milk" "" false false 178 20 20)))
       false,
     mkStore (<[0%N := Todo.mk 0 "Buy milk" "" false false 178 20 20]> ∅) 1).
Proof. reflexivity. Qed.

Example update_then_delete_then_list :
  let s1 := snd (sample_app (Api PUT_api_todos_id)
                   (bearer "tok-alice" milk_id (Body.mk None None (Some true)))
                   20 sample_store) in
  let s2 := snd (sample_app (Api DELETE_api_todos_id)
                   (bearer "tok-alice" milk_id no_body) 30 s1) in
  Todo.completed <$> todos s1 !! 1%N = Some true
  /\ Todo.title <$> todos s1 !! 1%N = Some "Buy milk"
  /\ fst (sample_app (Api GET_api_todos) (bearer "tok-alice" "" no_body) 40 s2)
     = mkRes 200 (Some (JTodos [])) false.
Proof. cbv zeta. repeat split; reflexivity. Qed.

(** A token that verifies but whose [id] does not cast is none of the four
    gate failures: the lookup throws and the gate answers 500. *)
Example bearer_odd_id_is_500 :
  auth_failure hex24 sample_verify sample_users
    (bearer "tok-odd-id" milk_id no_body) = None
  /\ sample_app (Api GET_api_todos) (bearer "tok-odd-id" milk_id no_body)
       20 sample_store
     = (mkRes 500 (Some (JError "Server error")) false, sample_store).
Proof. split; reflexivity. Qed.

(** An anonymous form request is answered 401 by the handler itself. *)
Example web_anonymous_is_401 :
  sample_app (Web DELETE_todos_id) (with_cookie "tok-expired" milk_id no_body)
    20 sample_store
  = (mkRes 401 (Some (JError "Unauthorized")) true, sample_store).
Proof. reflexivity. Qed.

(** ** More of the controller, the gates and the form handlers *)

Section Coverage.

Variable castObjectId : string -> option ObjectId.
Variable jwt_verify : string -> Result Payload.t.
Variable users : gmap N User.t.

#[local] Abbreviation app' := (app castObjectId jwt_verify users).
#[local] Abbreviation auth' := (auth castObjectId jwt_verify users).
#[local] Abbreviation identity := (identity_of castObjectId jwt_verify users).
#[local] Abbreviation entry := (entry_res castObjectId jwt_verify users).
#[local] Abbreviation cookie := (cookie_jwt castObjectId jwt_verify users).
#[local] Abbreviation identified :=
  (app_identified castObjectId jwt_verify users).
#[local] Abbreviation id_cast := (identity_cast castObjectId jwt_verify users).

Ltac steps :=
  unfold controller, web_handler, updateTodo, deleteTodo, markAsRead,
    createTodo, getTodos, put_todos_id, delete_todos_id,
    patch_todos_id_read, post_todos, try_catch, Todo_findOne,
    Todo_findOneAndDelete, Todo_find_sorted, bind, lift, ret, cast;
  cbn beta iota.

(** *** List *)

#[local] Existing Instance newer_first_dec.

#[local] Instance newer_first_total : Total newer_first.
Proof. intros a b. unfold newer_first. lia. Qed.

#[local] Instance newer_first_transitive : Transitive newer_first.
Proof. intros a b c. unfold newer_first. lia. Qed.

Lemma owned_by_elem owner s d :
  d ∈ owned_by owner s <->
  (exists k : N, todos s !! k = Some d) /\ Todo.user d = owner.
Proof.
  unfold owned_by. rewrite list_elem_of_filter, list_elem_of_fmap. split.
  - intros [Hu ([k d'] & -> & Hin)]. apply elem_of_map_to_list in Hin. eauto.
  - intros [[k Hk] Hu]. split; [exact Hu|].
    exists (k, d). split; [reflexivity|]. apply elem_of_map_to_list, Hk.
Qed.

Lemma getTodos_run decoded owner req res now s :
  castObjectId (Payload.id decoded) = Some owner ->
  getTodos castObjectId decoded req res now s =
    (json (JTodos (merge_sort newer_first (owned_by owner s))) res, s).
Proof. intros Ho. steps. rewrite Ho. reflexivity. Qed.

(** List on an identified request answers 200 with the caller's records and
    no others, each stored record once, newest first, and leaves the store
    alone. *)
Theorem list_is_exact_and_sorted
    (req : Req) (now : Z) (s : Store) (decoded : Payload.t) (owner : ObjectId) :
  identity req = Some (decoded, owner) ->
  exists l : list Todo.t,
    app' (Api GET_api_todos) req now s = (json (JTodos l) (entry req), s)
    /\ statusCode (entry req) = 200%nat
    /\ StronglySorted newer_first l
    /\ l ≡ₚ owned_by owner s
    /\ forall d : Todo.t,
         d ∈ l <->
         (exists k : N, todos s !! k = Some d) /\ Todo.user d = owner.
Proof.
  intros Hid. exists (merge_sort newer_first (owned_by owner s)).
  split; [|split; [|split; [|split]]].
  - rewrite (identified _ _ _ _ _ _ Hid). apply getTodos_run, (id_cast _ _ _ Hid).
  - apply entry_untouched.
  - apply StronglySorted_merge_sort; apply _.
  - apply merge_sort_Permutation.
  - intros d. rewrite merge_sort_Permutation. apply owned_by_elem.
Qed.

(** *** Create, then List *)

Lemma createTodo_run decoded owner req res now s title :
  castObjectId (Payload.id decoded) = Some owner ->
  wf s ->
  Body.title (body req) = Some title -> title <> "" ->
  createTodo castObjectId decoded req res now s =
    (json (JTodo (Todo.mk (nextId s) title
                    (default "" (Body.description (body req)))
                    false false owner now now)) (status 201 res),
     mkStore (<[nextId s :=
                 Todo.mk (nextId s) title
                   (default "" (Body.description (body req)))
                   false false owner now now]> (todos s))
             (N.succ (nextId s))).
Proof.
  intros Ho Hwf Ht Hne. steps. rewrite Ht.
  destruct title as [|c t]; [contradiction|].
  unfold Todo_new, cast. rewrite Ho.
  rewrite save_new; [reflexivity | discriminate |].
  cbn. apply wf_next_free, Hwf.
Qed.

Lemma owned_by_insert_new owner s k d next :
  todos s !! k = None ->
  owned_by owner (mkStore (<[k := d]> (todos s)) next)
  ≡ₚ (if decide (Todo.user d = owner) then d :: owned_by owner s
      else owned_by owner s).
Proof.
  intros Hk. unfold owned_by. cbn [todos].
  rewrite (map_to_list_insert _ _ _ Hk). cbn [fmap list_fmap snd].
  rewrite filter_cons. destruct (decide (Todo.user d = owner)); reflexivity.
Qed.

(** After a successful Create, the caller's List holds the new record
    beside exactly the records it held before, and every other user's List
    holds what it held before. *)
Theorem create_then_list
    (req req2 : Req) (now now2 : Z) (s : Store) (title : string)
    (decoded decoded2 : Payload.t) (owner owner2 : ObjectId) :
  identity req = Some (decoded, owner) ->
  identity req2 = Some (decoded2, owner2) ->
  wf s ->
  Body.title (body req) = Some title ->
  title <> "" ->
  exists (new : Todo.t) (s' : Store) (l l' : list Todo.t),
    app' (Api POST_api_todos) req now s =
      (json (JTodo new) (status 201 (entry req)), s')
    /\ app' (Api GET_api_todos) req2 now2 s = (json (JTodos l) (entry req2), s)
    /\ app' (Api GET_api_todos) req2 now2 s' =
         (json (JTodos l') (entry req2), s')
    /\ (owner2 = owner -> l' ≡ₚ new :: l)
    /\ (owner2 <> owner -> l' ≡ₚ l).
Proof.
  intros Hid Hid2 Hwf Ht Hne.
  pose proof (id_cast _ _ _ Hid) as Ho.
  pose proof (id_cast _ _ _ Hid2) as Ho2.
  eexists _, _, _, _.
  split; [|split; [|split; [|split]]].
  - rewrite (identified _ _ _ _ _ _ Hid).
    apply (createTodo_run _ _ _ _ _ _ _ Ho Hwf Ht Hne).
  - rewrite (identified _ _ _ _ _ _ Hid2). apply getTodos_run, Ho2.
  - rewrite (identified _ _ _ _ _ _ Hid2). apply getTodos_run, Ho2.
  - intros ->. rewrite !merge_sort_Permutation.
    rewrite owned_by_insert_new by apply wf_next_free, Hwf.
    cbn [Todo.user].
    destruct (decide (owner = owner)); [reflexivity | contradiction].
  - intros Hdiff. rewrite !merge_sort_Permutation.
    rewrite owned_by_insert_new by apply wf_next_free, Hwf.
    cbn [Todo.user].
    destruct (decide (owner = owner2)); [congruence | reflexivity].
Qed.

(** *** One user's requests and another user's records *)

Lemma own_only_refl owner s : own_only owner s s.
Proof. intros k. left. reflexivity. Qed.

Lemma own_only_write owner s i old d (next : ObjectId) :
  todos s !! i = Some old -> Todo.user old = owner -> Todo.user d = owner ->
  own_only owner s (mkStore (<[i := d]> (todos s)) next).
Proof.
  intros Hold Hu Hd k. cbn [todos].
  destruct (decide (i = k)) as [<-|Hne].
  - right. rewrite Hold, lookup_insert_eq. split; intros ? [= <-]; assumption.
  - left. apply lookup_insert_ne, Hne.
Qed.

Lemma own_only_insert owner s i d (next : ObjectId) :
  todos s !! i = None -> Todo.user d = owner ->
  own_only owner s (mkStore (<[i := d]> (todos s)) next).
Proof.
  intros Hnone Hd k. cbn [todos].
  destruct (decide (i = k)) as [<-|Hne].
  - right. rewrite Hnone, lookup_insert_eq.
    split; [discriminate | intros ? [= <-]; assumption].
  - left. apply lookup_insert_ne, Hne.
Qed.

Lemma own_only_delete owner s i old (next : ObjectId) :
  todos s !! i = Some old -> Todo.user old = owner ->
  own_only owner s (mkStore (delete i (todos s)) next).
Proof.
  intros Hold Hu k. cbn [todos].
  destruct (decide (i = k)) as [<-|Hne].
  - right. rewrite Hold, lookup_delete_eq.
    split; [intros ? [= <-]; assumption | discriminate].
  - left. apply lookup_delete_ne, Hne.
Qed.

Lemma own_only_save owner s d old now :
  wf s -> todos s !! Todo._id d = Some old ->
  Todo.user old = owner -> Todo.user d = owner ->
  own_only owner s (snd (save d now s)).
Proof.
  intros Hwf Hold Hu Hd.
  destruct (decide (Todo.title d = "")) as [He|Hne].
  - rewrite (save_invalid _ _ _ He). apply own_only_refl.
  - destruct (save_existing d old now s Hne Hold) as [u ->]. cbn [snd].
    eapply own_only_write; eauto.
Qed.

Lemma found_then_save_own_only (f : Todo.t -> Todo.t) (m : Todo.t -> M Res)
    id owner o now (h : ErrorName -> Res) (r404 : Res) s :
  wf s ->
  cast castObjectId owner = Ok o ->
  (forall d, Todo._id (f d) = Todo._id d /\ Todo.user (f d) = Todo.user d) ->
  (forall d s1, snd (m d s1) = s1) ->
  own_only o s
    (snd (try_catch
            (await todo <- Todo_findOne castObjectId id owner;
             match todo with
             | None => ret r404
             | Some todo => await todo <- save (f todo) now; m todo
             end) h s)).
Proof.
  intros Hwf Ho Hf Hm. unfold try_catch, Todo_findOne, bind, lift, ret.
  destruct (cast castObjectId id) as [i|e]; [|apply own_only_refl].
  rewrite Ho.
  destruct (matching i o s) as [T|] eqn:Hmatch; [|apply own_only_refl].
  apply matching_Some in Hmatch as [HT Hu].
  destruct (wf_lookup _ _ _ Hwf HT) as (Hk & _ & _).
  destruct (Hf T) as [Fi Fu].
  assert (Hold : todos s !! Todo._id (f T) = Some T) by (rewrite Fi, Hk; exact HT).
  assert (Hd : Todo.user (f T) = o) by congruence.
  pose proof (own_only_save o s (f T) T now Hwf Hold Hu Hd) as H.
  destruct (save (f T) now s) as [[d'|e] s2]; [|exact H].
  specialize (Hm d' s2). destruct (m d' s2) as [[r|e] s3]; cbn in *; subst; exact H.
Qed.

Lemma found_then_delete_own_only id owner o (h : ErrorName -> Res)
    (r404 r200 : Res) s :
  cast castObjectId owner = Ok o ->
  own_only o s
    (snd (try_catch
            (await result <- Todo_findOneAndDelete castObjectId id owner;
             match result with
             | None => ret r404
             | Some _ => ret r200
             end) h s)).
Proof.
  intros Ho. unfold try_catch, Todo_findOneAndDelete, bind, lift, ret.
  destruct (cast castObjectId id) as [i|e]; [|apply own_only_refl].
  rewrite Ho.
  destruct (matching i o s) as [T|] eqn:Hmatch; [|apply own_only_refl].
  apply matching_Some in Hmatch as [HT Hu]. cbn [snd].
  eapply own_only_delete; eauto.
Qed.

Lemma new_then_save_own_only (m : Todo.t -> M Res) title description owner o
    now (h : ErrorName -> Res) s :
  wf s ->
  cast castObjectId owner = Ok o ->
  (forall d s1, snd (m d s1) = s1) ->
  own_only o s
    (snd (try_catch
            (await todo <- Todo_new castObjectId title description owner
                             false false;
             await todo <- save todo now;
             m todo) h s)).
Proof.
  intros Hwf Ho Hm. unfold try_catch, bind, Todo_new. rewrite Ho.
  set (d := Todo.mk (nextId s) title description false false o 0 0).
  destruct (decide (title = "")) as [He|Hne].
  - rewrite save_invalid by exact He. intros k. left. reflexivity.
  - rewrite save_new; [| exact Hne | cbn; apply wf_next_free, Hwf].
    specialize (Hm (Todo.set_timestamps now now d)).
    match goal with |- context [m ?a ?b] =>
      specialize (Hm b); destruct (m a b) as [[r|e] s3] end;
      cbn in *; subst; apply own_only_insert;
      first [apply wf_next_free, Hwf | reflexivity].
Qed.

Lemma assign_fields_keeps b d :
  Todo._id (assign_fields b d) = Todo._id d
  /\ Todo.user (assign_fields b d) = Todo.user d.
Proof. destruct (assign_fields_spec b d) as (_ & _ & _ & _ & Hu & Hi & _). auto. Qed.

Lemma controller_own_only r decoded owner req res now s :
  wf s ->
  castObjectId (Payload.id decoded) = Some owner ->
  own_only owner s (snd (controller castObjectId r decoded req res now s)).
Proof.
  intros Hwf Ho.
  assert (Hc : cast castObjectId (IdStr (Payload.id decoded)) = Ok owner)
    by (unfold cast; rewrite Ho; reflexivity).
  destruct r; cbn [controller].
  - rewrite (getTodos_run _ _ _ _ _ _ Ho). apply own_only_refl.
  - unfold createTodo.
    destruct (Body.title (body req)) as [[|c t]|]; try apply own_only_refl.
    apply new_then_save_own_only; [exact Hwf | exact Hc | reflexivity].
  - apply (found_then_save_own_only (assign_fields (body req)));
      [exact Hwf | exact Hc | | reflexivity].
    intros d. apply assign_fields_keeps.
  - apply found_then_delete_own_only, Hc.
  - apply (found_then_save_own_only (Todo.set_read true));
      [exact Hwf | exact Hc | | reflexivity].
    intros d. split; reflexivity.
Qed.

(** Whatever an identified user asks of the API, on any route and with any
    id and body, the records of every other user are afterwards exactly
    what they were: none changed, none removed, none added. *)
Theorem other_owners_untouched
    (r : ApiRoute) (req : Req) (now : Z) (s : Store)
    (decoded : Payload.t) (B : ObjectId) :
  identity req = Some (decoded, B) ->
  wf s ->
  forall (k : N) (T : Todo.t),
    Todo.user T <> B ->
    (todos (snd (app' (Api r) req now s)) !! k = Some T
     <-> todos s !! k = Some T).
Proof.
  intros Hid Hwf k T Hne.
  rewrite (identified _ _ _ _ _ _ Hid).
  destruct (controller_own_only r decoded B req (entry req) now s Hwf
              (id_cast _ _ _ Hid) k) as [-> | [Hbefore Hafter]].
  - reflexivity.
  - split; intros H; exfalso; apply Hne; eauto.
Qed.

(** *** Update and MarkRead on a matching record *)

(** An Update whose input carries an empty title, on a record that
    matches, is answered 500 with [{ error: 'Server error' }] and writes
    nothing. *)
Theorem update_empty_title_rejected
    (req : Req) (now : Z) (s : Store)
    (decoded : Payload.t) (owner : ObjectId) (tid : ObjectId) (T : Todo.t) :
  identity req = Some (decoded, owner) ->
  castObjectId (params_id req) = Some tid ->
  todos s !! tid = Some T ->
  Todo.user T = owner ->
  Body.title (body req) = Some "" ->
  app' (Api PUT_api_todos_id) req now s =
    (json (JError "Server error") (status 500 (entry req)), s).
Proof.
  intros Hid Hi HT Hu Ht.
  rewrite (identified _ _ _ _ _ _ Hid). steps.
  rewrite Hi, (id_cast _ _ _ Hid).
  assert (Hm : matching tid owner s = Some T) by (apply matching_Some; auto).
  rewrite Hm, save_invalid; [reflexivity|].
  destruct (assign_fields_spec (body req) T) as (-> & _). rewrite Ht. reflexivity.
Qed.

(** MarkRead on a record that matches sets its [read] flag and nothing
    else but the modification time: title, description, completed, owner,
    id and creation time are as before, and so is every other record. *)
Theorem mark_read_changes_only_read
    (req : Req) (now : Z) (s : Store)
    (decoded : Payload.t) (owner : ObjectId) (tid : ObjectId) (T : Todo.t) :
  identity req = Some (decoded, owner) ->
  castObjectId (params_id req) = Some tid ->
  todos s !! tid = Some T ->
  Todo.user T = owner ->
  wf s ->
  exists T1 : Todo.t,
    app' (Api PATCH_api_todos_id_read) req now s =
      (json (JTodo T1) (entry req),
       mkStore (<[tid := T1]> (todos s)) (nextId s))
    /\ Todo.read T1 = true
    /\ Todo.title T1 = Todo.title T
    /\ Todo.description T1 = Todo.description T
    /\ Todo.completed T1 = Todo.completed T
    /\ Todo.user T1 = Todo.user T
    /\ Todo._id T1 = Todo._id T
    /\ Todo.createdAt T1 = Todo.createdAt T.
Proof.
  intros Hid Hi HT Hu Hwf.
  destruct (wf_lookup _ _ _ Hwf HT) as (Hk & _ & Htitle).
  set (d := Todo.set_read true T).
  assert (Hold : todos s !! Todo._id d = Some T) by (cbn; rewrite Hk; exact HT).
  destruct (save_existing d T now s Htitle Hold) as [u Hs].
  exists (Todo.set_timestamps (Todo.createdAt d) u d).
  split; [|repeat split].
  rewrite (identified _ _ _ _ _ _ Hid). steps.
  rewrite Hi, (id_cast _ _ _ Hid).
  assert (Hm : matching tid owner s = Some T) by (apply matching_Some; auto).
  rewrite Hm. fold d. rewrite Hs. cbn [Todo._id d Todo.set_read].
  rewrite Hk. reflexivity.
Qed.

(** *** What every reachable collection satisfies *)

(** Start from the empty collection and answer any requests at all, signed
    in or not, well-formed or not: every record then stored sits under its
    own id, an id the counter has issued, and has a non-empty title. *)
Theorem reachable_store_is_valid
    (trace : list (Route * Req * Z)) (k : N) (d : Todo.t) :
  todos (run castObjectId jwt_verify users trace (mkStore ∅ 0)) !! k = Some d ->
  Todo._id d = k
  /\ (k < nextId (run castObjectId jwt_verify users trace (mkStore ∅ 0)))%N
  /\ Todo.title d <> "".
Proof.
  intros Hk.
  exact (run_wf castObjectId jwt_verify users trace _ wf_empty k d Hk).
Qed.

(** The same Update sent twice, its present fields of the schema's types
    (title and description strings, completed a boolean, which is what
    [Body.t] holds) and its title absent or non-empty: the second is
    answered with the record the first one answered and writes nothing. *)
Theorem update_twice
    (req : Req) (now : Z) (s : Store)
    (decoded : Payload.t) (owner : ObjectId) (tid : ObjectId) (T : Todo.t) :
  identity req = Some (decoded, owner) ->
  castObjectId (params_id req) = Some tid ->
  todos s !! tid = Some T ->
  Todo.user T = owner ->
  wf s ->
  Body.title (body req) <> Some "" ->
  exists (T' : Todo.t) (s' : Store),
    app' (Api PUT_api_todos_id) req now s = (json (JTodo T') (entry req), s')
    /\ forall now2 : Z,
         app' (Api PUT_api_todos_id) req now2 s' =
           (json (JTodo T') (entry req), s').
Proof.
  intros Hid Hi HT Hu Hwf Hne.
  pose proof (id_cast _ _ _ Hid) as Ho.
  destruct (wf_lookup _ _ _ Hwf HT) as (Hk & _ & Htitle).
  set (d := assign_fields (body req) T).
  destruct (assign_fields_spec (body req) T) as (Ft & _ & _ & _ & Fu & Fi & _).
  fold d in Ft, Fu, Fi.
  assert (Hd : Todo.title d <> "").
  { rewrite Ft. destruct (Body.title (body req)) as [t|]; cbn.
    - intros ->. apply Hne. reflexivity.
    - exact Htitle. }
  assert (Hold : todos s !! Todo._id d = Some T) by (rewrite Fi, Hk; exact HT).
  destruct (save_existing d T now s Hd Hold) as [u Hs].
  set (T' := Todo.set_timestamps (Todo.createdAt d) u d) in *.
  exists T', (mkStore (<[tid := T']> (todos s)) (nextId s)).
  assert (Hm : matching tid owner s = Some T) by (apply matching_Some; auto).
  split.
  - rewrite (identified _ _ _ _ _ _ Hid). steps.
    rewrite Hi, Ho, Hm. fold d. rewrite Hs, Fi, Hk. reflexivity.
  - intros now2. rewrite (identified _ _ _ _ _ _ Hid). steps.
    rewrite Hi, Ho.
    assert (Hm1 : matching tid owner
                    (mkStore (<[tid := T']> (todos s)) (nextId s)) = Some T').
    { apply matching_Some. cbn. rewrite lookup_insert_eq.
      split; [reflexivity | congruence]. }
    rewrite Hm1.
    assert (Hidem : assign_fields (body req) T' = T').
    { unfold T', d, assign_fields.
      destruct (Body.title (body req)), (Body.description (body req)),
        (Body.completed (body req)); reflexivity. }
    rewrite Hidem, save_unchanged; [reflexivity | exact Hd |].
    cbn. fold d. rewrite Fi, Hk. apply lookup_insert_eq.
Qed.

(** *** What a response shows *)

Lemma save_result_user d now s d' s' :
  save d now s = (Ok d', s') -> Todo.user d' = Todo.user d.
Proof.
  unfold save, bind, lift.
  destruct (Todo.validate d); [|discriminate].
  destruct (todos s !! Todo._id d) as [old|].
  - destruct (decide (old = d)); intros [= <- _]; reflexivity.
  - intros [= <- _]. reflexivity.
Qed.

(** Every API response to an identified user has a body, and the body
    shows no record but that user's own: on every route, with any id and
    body, whatever the collection holds. *)
Theorem responses_show_only_own_records
    (r : ApiRoute) (req : Req) (now : Z) (s : Store)
    (decoded : Payload.t) (owner : ObjectId) :
  identity req = Some (decoded, owner) ->
  exists b : Json,
    sent (fst (app' (Api r) req now s)) = Some b /\ own_body owner b.
Proof.
  intros Hid. pose proof (id_cast _ _ _ Hid) as Ho.
  rewrite (identified _ _ _ _ _ _ Hid).
  destruct r; cbn [controller].
  - rewrite (getTodos_run _ _ _ _ _ _ Ho). eexists. split; [reflexivity|].
    cbn. apply Forall_forall. intros d Hd.
    rewrite merge_sort_Permutation in Hd. apply owned_by_elem in Hd as [_ Hu].
    exact Hu.
  - steps.
    destruct (Body.title (body req)) as [[|c t]|];
      try (eexists; split; [reflexivity | exact I]).
    unfold Todo_new, cast. rewrite Ho.
    match goal with |- context [save ?d now ?s1] =>
      destruct (save d now s1) as [[d'|e] s2] eqn:Hsave end;
      cbn -[save]; eexists; (split; [reflexivity|]); [|exact I].
    cbn. apply save_result_user in Hsave. exact Hsave.
  - steps. rewrite Ho.
    destruct (castObjectId (params_id req)) as [i|];
      [|eexists; split; [reflexivity | exact I]].
    destruct (matching i owner s) as [T|] eqn:Hm;
      [|eexists; split; [reflexivity | exact I]].
    apply matching_Some in Hm as [_ Hu].
    destruct (save _ now s) as [[d'|e] s2] eqn:Hsave; cbn -[save].
    + eexists. split; [reflexivity|]. cbn.
      apply save_result_user in Hsave. rewrite Hsave.
      destruct (assign_fields_spec (body req) T) as (_ & _ & _ & _ & -> & _).
      exact Hu.
    + unfold cast_or_server_error. destruct (decide (e = CastError));
        eexists; split; try reflexivity; exact I.
  - steps. rewrite Ho.
    destruct (castObjectId (params_id req)) as [i|];
      [|eexists; split; [reflexivity | exact I]].
    destruct (matching i owner s) as [T|];
      eexists; split; try reflexivity; exact I.
  - steps. rewrite Ho.
    destruct (castObjectId (params_id req)) as [i|];
      [|eexists; split; [reflexivity | exact I]].
    destruct (matching i owner s) as [T|] eqn:Hm;
      [|eexists; split; [reflexivity | exact I]].
    apply matching_Some in Hm as [_ Hu].
    destruct (save _ now s) as [[d'|e] s2] eqn:Hsave; cbn -[save].
    + eexists. split; [reflexivity|]. cbn.
      apply save_result_user in Hsave. rewrite Hsave. exact Hu.
    + unfold cast_or_server_error. destruct (decide (e = CastError));
        eexists; split; try reflexivity; exact I.
Qed.

(** *** The bearer-token gate, all cases *)

(** The gate hands a request to the handler only with the payload of a
    token that verified and names a stored user; every other request is
    answered by the gate itself, 401 or 500, with the store as it was and
    the handler not run. *)
Theorem gate_passes_only_identified (req : Req) :
  (exists (token : string) (decoded : Payload.t) (o : ObjectId) (u : User.t),
     header_token (headers_authorization req) = Some token
     /\ token <> ""
     /\ jwt_verify token = Ok decoded
     /\ castObjectId (Payload.id decoded) = Some o
     /\ users !! o = Some u
     /\ forall (next : Handler Payload.t) (res : Res) (now : Z) (s : Store),
          auth' next req res now s = next decoded req res now s)
  \/ (exists (code : nat) (msg : string),
        (code = 401%nat \/ code = 500%nat)
        /\ forall (next : Handler Payload.t) (res : Res) (now : Z) (s : Store),
             auth' next req res now s =
               (json (JError msg) (status code res), s)).
Proof.
  unfold auth.
  destruct (header_token _) as [[|c t]|] eqn:Hh.
  - right. exists 401%nat, "No token provided, authorization denied". auto.
  - destruct (jwt_verify (String c t)) as [d|e] eqn:Hv.
    + unfold User_findById, cast.
      destruct (castObjectId (Payload.id d)) as [o|] eqn:Hc.
      * destruct (users !! o) as [u|] eqn:Hu; cbn.
        -- left. exists (String c t), d, o, u.
           repeat split; auto; discriminate.
        -- right. exists 401%nat, "User not found". auto.
      * right. exists 500%nat, "Server error". auto.
    + right. unfold auth_error.
      destruct e; cbn;
        first [ exists 401%nat, "Invalid token"; split; [auto | reflexivity]
              | exists 401%nat, "Token expired"; split; [auto | reflexivity]
              | exists 500%nat, "Server error"; split; [auto | reflexivity] ].
  - right. exists 401%nat, "No token provided, authorization denied". auto.
Qed.

Lemma split_no_space t : no_space t = true -> split space t = [t].
Proof.
  induction t as [|c t IH]; [reflexivity|].
  cbn. destruct (Ascii.eqb c space); [discriminate|]. cbn.
  intros H. rewrite (IH H). reflexivity.
Qed.

Lemma append_empty (t : string) : t ++ "" = t.
Proof.
  induction t as [|x t IH]; [reflexivity|].
  change (String x (t ++ "") = String x t). rewrite IH. reflexivity.
Qed.

Lemma split_first a b :
  no_space a = true ->
  split space (a ++ String space b) = a :: split space b.
Proof.
  induction a as [|c a IH]; [reflexivity|].
  intros H. cbn [no_space] in H.
  destruct (Ascii.eqb c space) eqn:Hc; [discriminate|]. cbn in H.
  change (split space (String c (a ++ String space b))
          = String c a :: split space b).
  cbn [split]. rewrite Hc, (IH H). reflexivity.
Qed.

(** The gate reads the text between the first and the second space of the
    Authorization header as the token: the word in front of it need not be
    [Bearer], and whatever follows a second space is dropped. *)
Theorem gate_ignores_scheme_and_trailer
    (scheme tok rest : string) (c : option string) (id : string) (b : Body.t) :
  no_space scheme = true ->
  no_space tok = true ->
  rest = "" \/ (exists junk : string, rest = String space junk) ->
  header_token (Some (scheme ++ String space (tok ++ rest))) = Some tok
  /\ forall (r : ApiRoute) (res : Res) (now : Z) (s : Store),
       router castObjectId jwt_verify users r
         (mkReq (Some (scheme ++ String space (tok ++ rest))) c id b)
         res now s
       = router castObjectId jwt_verify users r
           (mkReq (Some ("Bearer " ++ tok)) c id b) res now s.
Proof.
  intros Hs Ht Hrest.
  assert (Hfield : forall sch, no_space sch = true ->
            header_token (Some (sch ++ String space (tok ++ rest))) = Some tok).
  { intros sch Hsch.
    assert (Hsplit : split space (sch ++ String space (tok ++ rest)) !! 1%nat
                     = Some tok).
    { rewrite (split_first _ _ Hsch). cbn [lookup list_lookup].
      destruct Hrest as [-> | [junk ->]].
      - rewrite append_empty, (split_no_space _ Ht). reflexivity.
      - rewrite (split_first _ _ Ht). reflexivity. }
    unfold header_token.
    destruct (sch ++ String space (tok ++ rest)) eqn:Heq; [|exact Hsplit].
    destruct sch; discriminate. }
  split; [apply Hfield, Hs|].
  intros r res now s. unfold router, auth. cbn [headers_authorization].
  rewrite (Hfield scheme Hs).
  assert (Hb : header_token (Some ("Bearer " ++ tok)) = Some tok).
  { assert (Hsplit : split space ("Bearer" ++ String space tok) !! 1%nat
                     = Some tok).
    { rewrite split_first by reflexivity. cbn [lookup list_lookup].
      rewrite (split_no_space _ Ht). reflexivity. }
    exact Hsplit. }
  rewrite Hb.
  destruct tok as [|x t]; [reflexivity|].
  destruct (jwt_verify _) as [d|e]; [|reflexivity].
  destruct (User_findById _ _ _) as [[u|]|e]; try reflexivity.
  destruct r; reflexivity.
Qed.

(** An Authorization header with no space in it, such as the bare token
    or the word [Bearer] alone, is answered as if no token came:
    401 with [No token provided, authorization denied]. *)
Theorem header_without_space_is_no_token
    (h : string) (c : option string) (id : string) (b : Body.t)
    (next : Handler Payload.t) (res : Res) (now : Z) (s : Store) :
  no_space h = true ->
  auth' next (mkReq (Some h) c id b) res now s =
    (json (JError "No token provided, authorization denied")
          (status 401 res), s).
Proof.
  intros Hh. unfold auth, header_token. cbn [headers_authorization].
  destruct h as [|x t]; [reflexivity|].
  rewrite (split_no_space _ Hh). reflexivity.
Qed.

(** *** The cookie middleware, all cases *)

(** When the cookie middleware attaches a user, it is the stored user the
    verified token names, without the password field, and the cookie is
    left in place. *)
Theorem cookie_user_is_stored_without_password
    (req : Req) (res : Res) (u : User.t) :
  fst (cookie req res) = Some u ->
  exists (token : string) (decoded : Payload.t) (o : ObjectId)
         (stored : User.t),
    cookies_token req = Some token
    /\ token <> ""
    /\ jwt_verify token = Ok decoded
    /\ castObjectId (Payload.id decoded) = Some o
    /\ users !! o = Some stored
    /\ User._id u = User._id stored
    /\ User.username u = User.username stored
    /\ User.password u = None
    /\ snd (cookie req res) = res.
Proof.
  unfold cookie_jwt.
  destruct (cookies_token req) as [[|c t]|]; try discriminate.
  destruct (jwt_verify (String c t)) as [d|e] eqn:Hv; try discriminate.
  unfold User_findById, cast.
  destruct (castObjectId (Payload.id d)) as [o|] eqn:Hc; try discriminate.
  destruct (users !! o) as [stored|] eqn:Hu; cbn; try discriminate.
  intros [= <-]. exists (String c t), d, o, stored.
  repeat split; auto; discriminate.
Qed.

(** The cookie middleware never answers a request: whatever the cookie, the
    status and the body of the response object are as it found them, and a
    cookie already marked for clearing stays so. *)
Theorem cookie_middleware_never_answers (req : Req) (res : Res) :
  statusCode (snd (cookie req res)) = statusCode res
  /\ sent (snd (cookie req res)) = sent res
  /\ (clearedCookie res = true -> clearedCookie (snd (cookie req res)) = true).
Proof.
  unfold cookie_jwt.
  destruct (cookies_token req) as [[|c t]|]; auto.
  destruct (jwt_verify _) as [d|e]; auto.
  destruct (User_findById _ _ _); auto.
Qed.

(** *** The form handlers beside the API *)

(** A form request on which the cookie middleware attached no user (no
    cookie, an empty one, one that fails verification, one that names no
    stored user) is answered 401 with [{ error: 'Unauthorized' }] on each
    of the four todo routes, and the store is as it was. *)
Theorem web_anonymous_is_unauthorized
    (r : WebRoute) (req : Req) (now : Z) (s : Store) :
  fst (cookie req res0) = None ->
  app' (Web r) req now s =
    (json (JError "Unauthorized") (status 401 (entry req)), s).
Proof.
  intros Hu. rewrite (app_web castObjectId jwt_verify users), Hu.
  destruct r; reflexivity.
Qed.

(** [save()] throws nothing but the validation error. *)
Lemma save_throws d now s e s2 :
  save d now s = (Throw e, s2) -> e = ValidationError /\ s2 = s.
Proof.
  unfold save, bind, lift, Todo.validate.
  destruct (decide (Todo.title d = "")); [intros [= <- <-]; auto|].
  destruct (todos s !! Todo._id d) as [old|]; [|discriminate].
  destruct (decide (old = d)); discriminate.
Qed.

(** A form request of a signed-in user and the API request of the same
    user with the same id and body do the same to the store, and are
    answered with the same status, except that an id that does not cast is
    500 on the form route and 400 on the API. *)
Theorem web_api_parity
    (r : WebRoute) (req req' : Req) (now : Z) (s : Store)
    (u : User.t) (decoded : Payload.t) :
  fst (cookie req res0) = Some u ->
  identity req' = Some (decoded, User._id u) ->
  params_id req' = params_id req ->
  body req' = body req ->
  snd (app' (Web r) req now s) = snd (app' (Api (api_of r)) req' now s)
  /\ (statusCode (fst (app' (Web r) req now s)) =
        statusCode (fst (app' (Api (api_of r)) req' now s))
      \/ (web_by_id r = true
          /\ castObjectId (params_id req) = None
          /\ statusCode (fst (app' (Web r) req now s)) = 500%nat
          /\ statusCode (fst (app' (Api (api_of r)) req' now s)) = 400%nat)).
Proof.
  intros Hu Hid Hp Hb.
  rewrite (app_web castObjectId jwt_verify users), Hu.
  rewrite (identified _ _ _ _ _ _ Hid).
  pose proof (id_cast _ _ _ Hid) as Ho.
  destruct (entry_untouched castObjectId jwt_verify users req) as [Hs1 _].
  destruct (entry_untouched castObjectId jwt_verify users req') as [Hs2 _].
  destruct r; cbn [api_of]; steps; rewrite ?Hp, ?Hb, ?Ho.
  - destruct (Body.title (body req)) as [[|c t]|]; cbn -[save]; auto.
    unfold Todo_new, cast. rewrite Ho.
    match goal with |- context [save ?d now ?s1] =>
      destruct (save d now s1) as [[d'|e] s2] end; cbn -[save]; auto.
  - destruct (castObjectId (params_id req)) as [i|] eqn:Hi; cbn -[save];
      [|split; [reflexivity | right; auto]].
    destruct (matching i (User._id u) s) as [T|]; cbn -[save]; auto.
    destruct (save _ now s) as [[d'|e] s2] eqn:Hsave; cbn -[save].
    + split; [reflexivity|]. left. congruence.
    + destruct (save_throws _ _ _ _ _ Hsave) as [-> ->]. auto.
  - destruct (castObjectId (params_id req)) as [i|] eqn:Hi; cbn -[save];
      [|split; [reflexivity | right; auto]].
    destruct (matching i (User._id u) s) as [T|]; cbn -[save]; auto.
    split; [reflexivity|]. left. congruence.
  - destruct (castObjectId (params_id req)) as [i|] eqn:Hi; cbn -[save];
      [|split; [reflexivity | right; auto]].
    destruct (matching i (User._id u) s) as [T|]; cbn -[save]; auto.
    destruct (save _ now s) as [[d'|e] s2] eqn:Hsave; cbn -[save].
    + split; [reflexivity|]. left. congruence.
    + destruct (save_throws _ _ _ _ _ Hsave) as [-> ->]. auto.
Qed.

End Coverage.

(** ** The pages *)

Section PageProperties.

Variable castObjectId : string -> option ObjectId.
Variable jwt_verify : string -> Result Payload.t.
Variable jwt_sign : ObjectId -> string -> string.
Variable comparePassword : User.t -> string -> Result bool.
Variable User_create :
  string -> string -> gmap N User.t -> Result (gmap N User.t).

#[local] Abbreviation pages' :=
  (pages castObjectId jwt_verify jwt_sign comparePassword User_create).

#[local] Existing Instance newer_first_dec.

Lemma pages_route route req form s us :
  pages' route req form s us =
  let user := fst (cookie_jwt castObjectId jwt_verify us req res0) in
  let res := entry_res castObjectId jwt_verify us req in
  match route with
  | GET_index => (get_index castObjectId user res s, us)
  | GET_login => (get_login user res, us)
  | GET_register => (get_register user res, us)
  | POST_login => (post_login jwt_sign comparePassword form res us, us)
  | POST_register => post_register User_create form res us
  | GET_logout => (get_logout res, us)
  | Unmatched => (not_found res, us)
  end.
Proof.
  unfold pages, entry_res. destruct (cookie_jwt _ _ _ _ _). reflexivity.
Qed.

(** A login that fails, because no user has the name or because the
    password does not match, is answered the same way in both cases:
    a redirect to [/login] with the flash message [Invalid credentials],
    no token cookie, and the users as they were. *)
Theorem login_failures_are_alike
    (req : Req) (form : Credentials.t) (s : Store) (us : gmap N User.t) :
  User_findOne (Credentials.username form) us = None
  \/ (exists u : User.t,
        User_findOne (Credentials.username form) us = Some u
        /\ comparePassword u (Credentials.password form) = Ok false) ->
  pages' POST_login req form s us =
    (redirect "/login"
       (flash FlashError "Invalid credentials"
          (page0 (entry_res castObjectId jwt_verify us req))), us)
  /\ page_cookie (fst (pages' POST_login req form s us)) = None.
Proof.
  intros H. rewrite pages_route. cbn zeta. unfold post_login.
  destruct H as [-> | (u & -> & ->)]; split; reflexivity.
Qed.

(** A login that succeeds sets the token cookie and redirects to [/]; if
    the token it signed verifies to a payload whose id casts back to the
    user's id, the cookie middleware on a later request carrying that
    cookie attaches that user, without the password. *)
Theorem login_cookie_signs_in
    (req : Req) (form : Credentials.t) (s : Store) (us : gmap N User.t)
    (u : User.t) (decoded : Payload.t) :
  User_findOne (Credentials.username form) us = Some u ->
  comparePassword u (Credentials.password form) = Ok true ->
  us !! User._id u = Some u ->
  jwt_sign (User._id u) (User.username u) <> "" ->
  jwt_verify (jwt_sign (User._id u) (User.username u)) = Ok decoded ->
  castObjectId (Payload.id decoded) = Some (User._id u) ->
  exists token : string,
    page_cookie (fst (pages' POST_login req form s us)) = Some token
    /\ page_sent (fst (pages' POST_login req form s us)) = Some (Redirect "/")
    /\ forall (req2 : Req) (res : Res),
         cookies_token req2 = Some token ->
         cookie_jwt castObjectId jwt_verify us req2 res =
           (Some (User.select_minus_password u), res).
Proof.
  intros Hfind Hpw Hkey Hne Hv Hc.
  exists (jwt_sign (User._id u) (User.username u)).
  rewrite pages_route. cbn zeta. unfold post_login. rewrite Hfind, Hpw.
  split; [reflexivity|]. split; [reflexivity|].
  intros req2 res Hcookie. unfold cookie_jwt. rewrite Hcookie.
  destruct (jwt_sign (User._id u) (User.username u)) as [|c t] eqn:Ht;
    [contradiction|].
  rewrite Hv. unfold User_findById, cast. rewrite Hc, Hkey. reflexivity.
Qed.

(** The index page: an anonymous visitor is redirected to [/login]; a
    signed-in user is shown exactly the list the API answers to that
    user. *)
Theorem index_page_shows_the_api_list
    (req : Req) (form : Credentials.t) (s : Store) (us : gmap N User.t) :
  (fst (cookie_jwt castObjectId jwt_verify us req res0) = None ->
   fst (pages' GET_index req form s us) =
     redirect "/login" (page0 (entry_res castObjectId jwt_verify us req)))
  /\ (forall (u : User.t) (req' : Req) (decoded : Payload.t) (now : Z),
        fst (cookie_jwt castObjectId jwt_verify us req res0) = Some u ->
        identity_of castObjectId jwt_verify us req'
          = Some (decoded, User._id u) ->
        exists l : list Todo.t,
          fst (pages' GET_index req form s us) =
            render (ViewIndex l)
                   (page0 (entry_res castObjectId jwt_verify us req))
          /\ app castObjectId jwt_verify us (Api GET_api_todos) req' now s =
               (json (JTodos l)
                     (entry_res castObjectId jwt_verify us req'), s)).
Proof.
  rewrite pages_route. cbn zeta. split.
  - intros ->. reflexivity.
  - intros u req' decoded now -> Hid.
    exists (merge_sort newer_first (owned_by (User._id u) s)).
    split; [reflexivity|].
    rewrite (app_identified _ _ _ _ _ _ _ _ _ Hid).
    apply getTodos_run, (identity_cast _ _ _ _ _ _ Hid).
Qed.

End PageProperties.

(** ** These properties at the concrete instance *)

Lemma list_is_exact_and_sorted_witness :
  identity_of hex24 sample_verify sample_users
    (bearer "tok-alice" "" no_body) = Some (alice, 161%N)
  /\ exists l : list Todo.t,
       sample_app (Api GET_api_todos) (bearer "tok-alice" "" no_body)
         40 sample_store = (json (JTodos l) res0, sample_store)
       /\ l ≡ₚ owned_by 161 sample_store.
Proof.
  split; [reflexivity|].
  destruct (list_is_exact_and_sorted hex24 sample_verify sample_users
              (bearer "tok-alice" "" no_body) 40 sample_store alice 161%N
              eq_refl) as (l & Hrun & _ & _ & Hperm & _).
  exists l. split; [exact Hrun | exact Hperm].
Defined.

Lemma create_then_list_witness :
  identity_of hex24 sample_verify sample_users
    (bearer "tok-alice" "" (Body.mk (Some "Walk dog") None None))
    = Some (alice, 161%N)
  /\ identity_of hex24 sample_verify sample_users
       (bearer "tok-bob" "" no_body) = Some (bob, 178%N)
  /\ wf sample_store
  /\ Body.title (Body.mk (Some "Walk dog") None None) = Some "Walk dog"
  /\ "Walk dog" <> ""
  /\ exists (new : Todo.t) (s' : Store) (l l' : list Todo.t),
       sample_app (Api POST_api_todos)
         (bearer "tok-alice" "" (Body.mk (Some "Walk dog") None None))
         20 sample_store
       = (json (JTodo new) (status 201 res0), s')
       /\ sample_app (Api GET_api_todos) (bearer "tok-bob" "" no_body)
            30 s' = (json (JTodos l') res0, s')
       /\ (178%N <> 161%N -> l' ≡ₚ l).
Proof.
  split; [reflexivity|]. split; [reflexivity|].
  split; [exact sample_store_wf|]. split; [reflexivity|].
  split; [discriminate|].
  destruct (create_then_list hex24 sample_verify sample_users
              (bearer "tok-alice" "" (Body.mk (Some "Walk dog") None None))
              (bearer "tok-bob" "" no_body) 20 30 sample_store "Walk dog"
              alice bob 161%N 178%N eq_refl eq_refl sample_store_wf eq_refl)
    as (new & s' & l & l' & H1 & _ & H3 & _ & H5); [discriminate|].
  exists new, s', l, l'. split; [exact H1|]. split; [exact H3 | exact H5].
Defined.

Lemma other_owners_untouched_witness :
  identity_of hex24 sample_verify sample_users
    (bearer "tok-bob" milk_id (Body.mk (Some "mine") None None))
    = Some (bob, 178%N)
  /\ wf sample_store
  /\ (todos (snd (sample_app (Api PUT_api_todos_id)
                    (bearer "tok-bob" milk_id (Body.mk (Some "mine") None None))
                    20 sample_store)) !! 1%N = Some milk
      <-> todos sample_store !! 1%N = Some milk).
Proof.
  split; [reflexivity|]. split; [exact sample_store_wf|].
  apply (other_owners_untouched hex24 sample_verify sample_users
           PUT_api_todos_id
           (bearer "tok-bob" milk_id (Body.mk (Some "mine") None None))
           20 sample_store bob 178%N eq_refl sample_store_wf 1%N milk).
  discriminate.
Defined.

Lemma update_empty_title_rejected_witness :
  identity_of hex24 sample_verify sample_users
    (bearer "tok-alice" milk_id (Body.mk (Some "") None None))
    = Some (alice, 161%N)
  /\ hex24 milk_id = Some 1%N
  /\ todos sample_store !! 1%N = Some milk
  /\ Todo.user milk = 161%N
  /\ Body.title (Body.mk (Some "") None None) = Some ""
  /\ sample_app (Api PUT_api_todos_id)
       (bearer "tok-alice" milk_id (Body.mk (Some "") None None))
       20 sample_store
     = (mkRes 500 (Some (JError "Server error")) false, sample_store).
Proof.
  repeat (split; [reflexivity|]).
  apply (update_empty_title_rejected hex24 sample_verify sample_users
           (bearer "tok-alice" milk_id (Body.mk (Some "") None None))
           20 sample_store alice 161%N 1%N milk); reflexivity.
Defined.

Lemma mark_read_changes_only_read_witness :
  identity_of hex24 sample_verify sample_users
    (bearer "tok-alice" milk_id no_body) = Some (alice, 161%N)
  /\ hex24 milk_id = Some 1%N
  /\ todos sample_store !! 1%N = Some milk
  /\ Todo.user milk = 161%N
  /\ wf sample_store
  /\ exists T1 : Todo.t,
       sample_app (Api PATCH_api_todos_id_read)
         (bearer "tok-alice" milk_id no_body) 20 sample_store
       = (json (JTodo T1) res0,
          mkStore (<[1%N := T1]> (todos sample_store)) 2)
       /\ Todo.read T1 = true
       /\ Todo.title T1 = "Buy milk".
Proof.
  repeat (split; [first [reflexivity | exact sample_store_wf]|]).
  destruct (mark_read_changes_only_read hex24 sample_verify sample_users
              (bearer "tok-alice" milk_id no_body) 20 sample_store
              alice 161%N 1%N milk
              eq_refl eq_refl eq_refl eq_refl sample_store_wf)
    as (T1 & Hrun & Hread & Htitle & _).
  exists T1. split; [exact Hrun|]. split; [exact Hread | exact Htitle].
Defined.

Lemma update_twice_witness :
  identity_of hex24 sample_verify sample_users
    (bearer "tok-alice" milk_id (Body.mk None (Some "2 l") (Some true)))
    = Some (alice, 161%N)
  /\ hex24 milk_id = Some 1%N
  /\ todos sample_store !! 1%N = Some milk
  /\ Todo.user milk = 161%N
  /\ wf sample_store
  /\ Body.title (Body.mk None (Some "2 l") (Some true)) <> Some ""
  /\ exists (T' : Todo.t) (s' : Store),
       sample_app (Api PUT_api_todos_id)
         (bearer "tok-alice" milk_id (Body.mk None (Some "2 l") (Some true)))
         20 sample_store = (json (JTodo T') res0, s')
       /\ sample_app (Api PUT_api_todos_id)
            (bearer "tok-alice" milk_id
               (Body.mk None (Some "2 l") (Some true)))
            30 s' = (json (JTodo T') res0, s').
Proof.
  repeat (split; [first [reflexivity | exact sample_store_wf | discriminate]|]).
  destruct (update_twice hex24 sample_verify sample_users
              (bearer "tok-alice" milk_id
                 (Body.mk None (Some "2 l") (Some true)))
              20 sample_store alice 161%N 1%N milk
              eq_refl eq_refl eq_refl eq_refl sample_store_wf)
    as (T' & s' & H1 & H2); [discriminate|].
  exists T', s'. split; [exact H1 | apply H2].
Defined.

Lemma reachable_store_is_valid_witness :
  todos (run hex24 sample_verify sample_users
           [(Api POST_api_todos,
             bearer "tok-alice" "" (Body.mk (Some "Buy milk") None None),
             20%Z)]
           (mkStore ∅ 0)) !! 0%N
    = Some (Todo.mk 0 "Buy milk" "" false false 161 20 20)
  /\ Todo.title (Todo.mk 0 "Buy milk" "" false false 161 20 20) <> "".
Proof.
  split; [reflexivity|].
  apply (reachable_store_is_valid hex24 sample_verify sample_users
           [(Api POST_api_todos,
             bearer "tok-alice" "" (Body.mk (Some "Buy milk") None None),
             20%Z)]
           0%N (Todo.mk 0 "Buy milk" "" false false 161 20 20) eq_refl).
Defined.

Lemma responses_show_only_own_records_witness :
  identity_of hex24 sample_verify sample_users
    (bearer "tok-bob" "" no_body) = Some (bob, 178%N)
  /\ exists b : Json,
       sent (fst (sample_app (Api GET_api_todos) (bearer "tok-bob" "" no_body)
                    20 sample_store)) = Some b
       /\ own_body 178 b.
Proof.
  split; [reflexivity|].
  apply (responses_show_only_own_records hex24 sample_verify sample_users
           GET_api_todos (bearer "tok-bob" "" no_body) 20 sample_store
           bob 178%N eq_refl).
Defined.

Lemma gate_ignores_scheme_and_trailer_witness :
  no_space "Token" = true
  /\ no_space "tok-alice" = true
  /\ (" and more" = "" \/ exists junk : string, " and more" = String space junk)
  /\ header_token (Some ("Token" ++ String space ("tok-alice" ++ " and more")))
     = Some "tok-alice".
Proof.
  split; [reflexivity|]. split; [reflexivity|].
  split; [right; exists "and more"; reflexivity|].
  apply (gate_ignores_scheme_and_trailer hex24 sample_verify sample_users
           "Token" "tok-alice" " and more" None milk_id no_body
           eq_refl eq_refl).
  right. exists "and more". reflexivity.
Defined.

Lemma header_without_space_is_no_token_witness :
  no_space "tok-alice" = true
  /\ sample_app (Api GET_api_todos)
       (mkReq (Some "tok-alice") None "" no_body) 20 sample_store
     = (mkRes 401
          (Some (JError "No token provided, authorization denied")) false,
        sample_store).
Proof.
  split; [reflexivity|].
  apply (header_without_space_is_no_token hex24 sample_verify sample_users
           "tok-alice" None "" no_body
           (controller hex24 GET_api_todos) res0 20 sample_store eq_refl).
Defined.

Lemma cookie_user_is_stored_without_password_witness :
  fst (cookie_jwt hex24 sample_verify sample_users
         (with_cookie "tok-alice" "" no_body) res0)
    = Some (User.mk 161 "alice" None)
  /\ User.password (User.mk 161 "alice" None) = None.
Proof.
  split; [reflexivity|].
  destruct (cookie_user_is_stored_without_password hex24 sample_verify
              sample_users (with_cookie "tok-alice" "" no_body) res0
              (User.mk 161 "alice" None) eq_refl)
    as (_ & _ & _ & _ & _ & _ & _ & _ & _ & _ & _ & H & _).
  exact H.
Defined.

Lemma web_anonymous_is_unauthorized_witness :
  fst (cookie_jwt hex24 sample_verify sample_users
         (with_cookie "tok-ghost" milk_id no_body) res0) = None
  /\ sample_app (Web PATCH_todos_id_read)
       (with_cookie "tok-ghost" milk_id no_body) 20 sample_store
     = (mkRes 401 (Some (JError "Unauthorized")) false, sample_store).
Proof.
  split; [reflexivity|].
  apply (web_anonymous_is_unauthorized hex24 sample_verify sample_users
           PATCH_todos_id_read (with_cookie "tok-ghost" milk_id no_body)
           20 sample_store eq_refl).
Defined.

Lemma web_api_parity_witness :
  fst (cookie_jwt hex24 sample_verify sample_users
         (with_cookie "tok-alice" milk_id no_body) res0)
    = Some (User.mk 161 "alice" None)
  /\ identity_of hex24 sample_verify sample_users
       (bearer "tok-alice" milk_id no_body) = Some (alice, 161%N)
  /\ snd (sample_app (Web DELETE_todos_id)
            (with_cookie "tok-alice" milk_id no_body) 20 sample_store)
     = snd (sample_app (Api DELETE_api_todos_id)
              (bearer "tok-alice" milk_id no_body) 20 sample_store).
Proof.
  split; [reflexivity|]. split; [reflexivity|].
  apply (web_api_parity hex24 sample_verify sample_users DELETE_todos_id
           (with_cookie "tok-alice" milk_id no_body)
           (bearer "tok-alice" milk_id no_body) 20 sample_store
           (User.mk 161 "alice" None) alice
           eq_refl eq_refl eq_refl eq_refl).
Defined.

Lemma login_failures_are_alike_witness :
  (User_findOne "carol" sample_users = None
   \/ exists u : User.t,
        User_findOne "carol" sample_users = Some u
        /\ sample_compare u "guess" = Ok false)
  /\ sample_pages POST_login (mkReq None None "" no_body)
       (Credentials.mk "carol" "guess") sample_store sample_users
     = (redirect "/login"
          (flash FlashError "Invalid credentials" (page0 res0)),
        sample_users).
Proof.
  split; [left; reflexivity|].
  apply (login_failures_are_alike hex24 sample_verify sample_sign
           sample_compare sample_create (mkReq None None "" no_body)
           (Credentials.mk "carol" "guess") sample_store sample_users).
  left. reflexivity.
Defined.

Lemma login_cookie_signs_in_witness :
  User_findOne "alice" sample_users
    = Some (User.mk 161 "alice" (Some "$2a$10$hash-a"))
  /\ sample_compare (User.mk 161 "alice" (Some "$2a$10$hash-a")) "hash-a"
     = Ok true
  /\ sample_users !! 161%N = Some (User.mk 161 "alice" (Some "$2a$10$hash-a"))
  /\ sample_sign 161 "alice" <> ""
  /\ sample_verify (sample_sign 161 "alice") = Ok alice
  /\ hex24 (Payload.id alice) = Some 161%N
  /\ exists token : string,
       page_cookie (fst (sample_pages POST_login (mkReq None None "" no_body)
                           (Credentials.mk "alice" "hash-a")
                           sample_store sample_users)) = Some token
       /\ cookie_jwt hex24 sample_verify sample_users
            (with_cookie token "" no_body) res0
          = (Some (User.mk 161 "alice" None), res0).
Proof.
  repeat (split; [first [reflexivity | discriminate]|]).
  destruct (login_cookie_signs_in hex24 sample_verify sample_sign
              sample_compare sample_create (mkReq None None "" no_body)
              (Credentials.mk "alice" "hash-a") sample_store sample_users
              (User.mk 161 "alice" (Some "$2a$10$hash-a")) alice
              eq_refl eq_refl eq_refl)
    as (token & Hcookie & _ & Hnext); [discriminate | reflexivity | reflexivity |].
  exists token. split; [exact Hcookie|].
  apply (Hnext (with_cookie token "" no_body) res0). reflexivity.
Defined.
